(** * Cortile: the vertical tiling layout and the client move lock

    A shallow embedding of [layout/vertical.go] ([Do], [UpdateProportions],
    the two constructors) and of [store/client.go] ([Lock], [UnLock],
    [MoveWindow] and the helpers it calls, [IsSpecial], [IsIgnored] and the
    state predicates), with the properties the design document states about
    them and further properties read off the code.

    Conventions.
    - Go's [int] is modelled by [Z]; the quantities are screen coordinates,
      slice lengths and slice indices.  Where a property depends on the
      absence of overflow the sizes are bounded by hypothesis ([int_sized]).
    - Go's [float64] is an interface, [Float64]: the layout code is written
      once over it.  Two instances are given, exact rationals ([Exact]) and
      IEEE binary64 ([Binary64], on Rocq's primitive floats).  [Float64Value]
      adds the number a value stands for and the one law of rounding the
      properties use: [int(math.Round(x))] is an integer nearest to [x].
      The properties of rounding are stated over it, so they hold of
      binary64 as of the rationals.
    - A Go slice is a [list]; indexing out of range panics, which is [None].
    - A pointer to a [store.Client] is identified by its address,
      [ClientPtr]. *)

From Stdlib Require Import ZArith QArith Qround Qminmax Qabs Lia Lqa String List Floats.
From stdpp Require Import base option list gmap strings.

Local Open Scope Z_scope.

(** ** Numbers *)

(** The [float64] operations the layout code uses. *)
Class Float64 (F : Type) := {
  float64 : Z -> F;        (* float64(n) *)
  fmul : F -> F -> F;      (* a * b *)
  fdiv : F -> F -> F;      (* a / b *)
  int_round : F -> Z;      (* int(math.Round(a)) *)
}.

(** Exact rational arithmetic: [float64] without representation error. *)
Module Exact.

(** [math.Round]: nearest integer, halves away from zero. *)
Definition round_half_away (q : Q) : Z :=
  if Qle_bool 0 q then Qfloor (q + (1 # 2)) else - Qfloor (- q + (1 # 2)).

#[export] Instance Q_float64 : Float64 Q := {|
  float64 := inject_Z;
  fmul := Qmult;
  fdiv := Qdiv;
  int_round := round_half_away;
|}.

End Exact.

(** IEEE 754 binary64, as Go computes.  [float64(n)] is taken for
    [|n| < 2^63]; [int(x)] of a NaN, an infinity or a value outside the
    [int] range is the amd64 result, [-2^63]. *)
Module Binary64.

Definition of_int (z : Z) : float :=
  match z with
  | Z0 => 0%float
  | Zpos _ => PrimFloat.of_uint63 (Uint63.of_Z z)
  | Zneg p => PrimFloat.opp (PrimFloat.of_uint63 (Uint63.of_Z (Zpos p)))
  end.

(** Nearest integer, halves away from zero, of [m * 2^e] with [0 <= m]. *)
Definition round_mantissa (m e : Z) : Z :=
  if 0 <=? e then m * 2 ^ e
  else (2 * m + 2 ^ (- e)) / 2 ^ (- e + 1).

Definition to_int_round (f : float) : Z :=
  match Prim2SF f with
  | S754_zero _ => 0
  | S754_finite s m e =>
      let r := round_mantissa (Zpos m) e in
      let z := if s then - r else r in
      if (- 2 ^ 63 <=? z) && (z <? 2 ^ 63) then z else - 2 ^ 63
  | S754_infinity _ | S754_nan => - 2 ^ 63
  end.

#[export] Instance binary64 : Float64 float := {|
  float64 := of_int;
  fmul := PrimFloat.mul;
  fdiv := PrimFloat.div;
  int_round := to_int_round;
|}.

End Binary64.

(** ** Package common *)

Module common.

(** [common.DesktopDimensions()], [common.Config.WindowGapSize] and
    [Client.OuterGeometry()] read the X server and the configuration;
    what they return is the environment of a call. *)
Record Env := {
  DesktopDimensions : Z * Z * Z * Z;           (* x, y, w, h *)
  WindowGapSize : Z;
  OuterGeometry : positive -> Z * Z * Z * Z;   (* x, y, w, h of a client *)
}.

(** Index a slice; [None] is the run-time panic. *)
Definition index {A} (s : list A) (i : Z) : option A :=
  if i <? 0 then None else s !! Z.to_nat i.

Definition len {A} (s : list A) : Z := Z.of_nat (length s).

End common.

(** ** Package store: the layout manager's data *)

Module store.

Definition ClientPtr := positive.

Record Windows := {
  Clients : list ClientPtr;   (* List of stored window clients *)
  Allowed : Z;                (* Currently allowed clients *)
}.

Record ProportionVectors (F : Type) := {
  MasterSlave : list F;
  MasterMaster : list F;
  SlaveSlave : list F;
}.
Arguments MasterSlave {F} _.
Arguments MasterMaster {F} _.
Arguments SlaveSlave {F} _.

Record Manager (F : Type) := {
  DeskNum : N;
  Proportions : ProportionVectors F;
  Masters : Windows;
  Slaves : Windows;
}.
Arguments DeskNum {F} _.
Arguments Proportions {F} _.
Arguments Masters {F} _.
Arguments Slaves {F} _.

(** Modelled from the spec: [Manager.Clients()] is absent from the sources;
    the design document gives [Clients] as the union of the two disjoint
    partitions, masters first. *)
Definition AllClients {F} (mg : Manager F) : list ClientPtr :=
  Clients (Masters mg) ++ Clients (Slaves mg).

(** Modelled from the spec: [Manager.Index(list, c)] is absent from the
    sources; it is the position of [c] in [list], and -1 when absent. *)
Fixpoint Index (cs : list ClientPtr) (c : ClientPtr) : Z :=
  match cs with
  | [] => -1
  | c' :: cs' =>
      if Pos.eqb c' c then 0
      else let i := Index cs' c in if i <? 0 then -1 else i + 1
  end.

(** Modelled from the spec: [Manager.IsMaster(c)] is absent from the
    sources; it is membership in the master partition. *)
Definition IsMaster {F} (mg : Manager F) (c : ClientPtr) : bool :=
  0 <=? Index (Clients (Masters mg)) c.

(** Modelled from the spec: [Manager.SetProportions(vector, value, indexA,
    indexB)] is absent from the sources.  The design document: it sets
    [vector[indexA] = value] and [vector[indexB] = vector[indexB]_old +
    vector[indexA]_old - value]; each entry is kept at or above a minimum
    positive floor; the call is a no-op when [indexA = indexB] or an index
    is outside the vector.  The words are followed in their order: the two
    entries are written, then each entry of the vector below the floor is
    raised to it.  Exact rationals stand for [float64]. *)
Definition SetProportions (floor : Q) (ps : list Q) (value : Q) (i j : Z) : list Q :=
  if (i =? j) || (i <? 0) || (common.len ps <=? i) || (j <? 0) || (common.len ps <=? j)
  then ps
  else
    match common.index ps i, common.index ps j with
    | Some a, Some b =>
        map (Qmax floor) (<[Z.to_nat i := value]> (<[Z.to_nat j := (b + a - value)%Q]> ps))
    | _, _ => ps
    end.


End store.

(** ** Package store: client.go *)

Module client.

Definition Window := N.   (* xproto.Window, an X resource id *)

Record Geometry := { X : Z; Y : Z; Width : Z; Height : Z }.

Record FrameExtents := { ExtLeft : Z; ExtRight : Z; ExtTop : Z; ExtBottom : Z }.

Record Location := { Desktop : N; Screen : N }.

(** [Hints] (the icccm and motif library structs) is not read by the
    functions modelled here and is left out. *)
Record Dimensions := {
  Geom : Geometry;          (* Client window geometry *)
  Extents : FrameExtents;   (* Client window geometry extents *)
  AdjPos : bool;            (* Position adjustments on move/resize *)
  AdjSize : bool;           (* Size adjustments on move/resize *)
  AdjRestore : bool;        (* Disable adjustments on restore *)
}.

Record Info := {
  Class : string;
  Name : string;
  Types : list string;
  States : list string;
  Loc : Location;
  Dims : Dimensions;
}.

Record Client := {
  Win : Window;
  Original : Info;
  Cached : Info;
  Latest : Info;
  Locked : bool;
}.

(** The requests [MoveWindow] and its helpers send to the X server through
    the ewmh library. *)
Inductive Request :=
| WmStateReq (w : Window) (add : bool) (state : string)
| MoveresizeWindow (w : Window) (x y width height : Z)
| MoveWindowReq (w : Window) (x y : Z).

(** A method of [*Client]: it reads and writes the client and sends
    requests.  [GetInfo] queries the X server; its answer is the oracle
    [getInfo] of the call. *)
Definition M (A : Type) : Type := Client -> A * Client * list Request.

Definition ret {A} (a : A) : M A := fun c => (a, c, []).

Definition bind {A B} (m : M A) (k : A -> M B) : M B :=
  fun c => let '(a, c1, r1) := m c in
           let '(b, c2, r2) := k a c1 in
           (b, c2, r1 ++ r2).

Definition send (r : Request) : M unit := fun c => (tt, c, [r]).
Definition this : M Client := fun c => (c, c, []).
Definition put (c' : Client) : M unit := fun _ => (tt, c', []).

Notation "x <- m ;; k" := (bind m (fun x => k))
  (at level 100, m at next level, right associativity, only parsing).
Notation "m ;;; k" := (bind m (fun _ => k))
  (at level 100, right associativity, only parsing).

Definition set_Locked (b : bool) (c : Client) : Client :=
  {| Win := Win c; Original := Original c; Cached := Cached c;
     Latest := Latest c; Locked := b |}.

Definition set_Latest (i : Info) (c : Client) : Client :=
  {| Win := Win c; Original := Original c; Cached := Cached c;
     Latest := i; Locked := Locked c |}.

Definition Lock : M unit := c <- this ;; put (set_Locked true c).
Definition UnLock : M unit := c <- this ;; put (set_Locked false c).

(** [common.IsInList] *)
Definition IsInList (item : string) (items : list string) : bool :=
  existsb (String.eqb item) items.

Definition IsFullscreen (info : Info) : bool :=
  IsInList "_NET_WM_STATE_FULLSCREEN" (States info).

Definition IsMaximized (info : Info) : bool :=
  IsInList "_NET_WM_STATE_MAXIMIZED_VERT" (States info)
  || IsInList "_NET_WM_STATE_MAXIMIZED_HORZ" (States info).

Definition UnFullscreen : M bool :=
  c <- this ;;
  if negb (IsFullscreen (Latest c)) then ret false
  else
    send (WmStateReq (Win c) false "_NET_WM_STATE_FULLSCREEN") ;;;
    ret true.

Definition UnMaximize : M bool :=
  c <- this ;;
  if negb (IsMaximized (Latest c)) then ret false
  else
    send (WmStateReq (Win c) false "_NET_WM_STATE_MAXIMIZED_VERT") ;;;
    send (WmStateReq (Win c) false "_NET_WM_STATE_MAXIMIZED_HORZ") ;;;
    ret true.

Section with_server.
Variable getInfo : Window -> Info.

Definition Update : M unit :=
  c <- this ;;
  let info := getInfo (Win c) in
  if (String.length (Class info) =? 0)%nat then ret tt
  else put (set_Latest info c).

Definition MoveWindow (x y w h : Z) : M unit :=
  c <- this ;;
  if Locked c then
    (* Remove lock *)
    UnLock
  else
    (* Remove unwanted properties *)
    UnMaximize ;;;
    UnFullscreen ;;;
    c <- this ;;
    (* Calculate dimension offsets *)
    let ext := Extents (Dims (Latest c)) in
    let '(dx, dy) := if AdjPos (Dims (Latest c))
                     then (ExtLeft ext, ExtTop ext) else (0, 0) in
    let '(dw, dh) := if AdjSize (Dims (Latest c))
                     then (ExtLeft ext + ExtRight ext, ExtTop ext + ExtBottom ext)
                     else (0, 0) in
    (* Move and/or resize window *)
    (if (0 <? w) && (0 <? h)
     then send (MoveresizeWindow (Win c) (x + dx) (y + dy) (w - dw) (h - dh))
     else send (MoveWindowReq (Win c) (x + dx) (y + dy))) ;;;
    (* Update stored dimensions *)
    Update.

End with_server.

End client.

(** ** Package layout: vertical.go *)

Module layout.
Import common store.

(** One [c.MoveResize(x, y, w, h)] call. *)
Record Placement := {
  client : ClientPtr;
  px : Z;
  py : Z;
  pw : Z;
  ph : Z;
}.

Section vertical.
Context {F : Type} `{Float64 F}.

Record VerticalLayout := {
  Manager : store.Manager F;
  Name : string;
}.

(** The body of the two [for i, c := range ...] loops of [Do]: [x] and
    [w] are the loop-invariant horizontal arguments of [MoveResize],
    [amax] the partition's [Allowed], [size] its visible size and [ps]
    its row proportions; [i] is the loop index and [y] the running
    offset. *)
Fixpoint column_loop (dy dh gap x w amax size : Z) (ps : list F)
    (i y : Z) (cs : list ClientPtr) : option (list Placement) :=
  match cs with
  | [] => Some []
  | c :: cs' =>
      (* Reset y position *)
      let y := if Z.rem i amax =? 0 then dy + gap else y in
      (* Calculate height *)
      p ← index ps (Z.rem i size);
      let h := int_round (fmul (float64 (dh - (size + 1) * gap)) p) in
      (* Move and resize, then add y offset *)
      rest ← column_loop dy dh gap x w amax size ps (i + 1) (y + h + gap) cs';
      Some ({| client := c; px := x; py := y; pw := w; ph := h |} :: rest)
  end.

Definition Do (l : VerticalLayout) (env : Env) : option (list Placement) :=
  let '(dx, dy, dw, dh) := DesktopDimensions env in
  let gap := WindowGapSize env in
  let mmax := Allowed (Masters (Manager l)) in
  let smax := Allowed (Slaves (Manager l)) in
  let msize := Z.min (len (Clients (Masters (Manager l)))) mmax in
  let ssize := Z.min (len (Clients (Slaves (Manager l)))) smax in
  let csize := len (AllClients (Manager l)) in
  let mx := dx in
  p0 ← index (MasterSlave (Proportions (Manager l))) 0;
  let mw := int_round (fmul (float64 dw) p0) in
  let sx := mx + mw in
  let sw := dw - mw in
  (* Swap values if master is on right *)
  let '(mx, mw, sx, sw) :=
    if String.eqb (Name l) "vertical-right" && (mmax <? csize)
    then (sx, sw, mx + gap, mw)
    else (mx, mw, sx, sw) in
  (* Master area layout *)
  ms ← (if 0 <? msize then
          let mw := if ssize =? 0 then dw else mw in
          column_loop dy dh gap (mx + gap) (mw - 2 * gap) mmax msize
            (MasterMaster (Proportions (Manager l))) 0 0
            (Clients (Masters (Manager l)))
        else Some []);
  (* Slave area layout *)
  ss ← (if 0 <? ssize then
          let '(sx, sw) := if msize =? 0 then (dx + gap, dw - gap) else (sx, sw) in
          column_loop dy dh gap sx (sw - gap) smax ssize
            (SlaveSlave (Proportions (Manager l))) 0 0
            (Clients (Slaves (Manager l)))
        else Some []);
  Some (ms ++ ss).

(** [store.Directions]: which edges of a client a resize moved. *)
Record Directions := {
  Top : bool;
  Right : bool;
  Bottom : bool;
  Left : bool;
}.

(** [Manager.SetProportions(ps, pi, i, j)] is absent from the sources.
    It is a parameter here: a function of the slice it is given, whose
    result is the slice's contents after the call. *)
Variable SetProportions : list F -> F -> Z -> Z -> list F.

Definition with_MasterSlave (l : VerticalLayout) (ps : list F) : VerticalLayout :=
  {| Manager := {| DeskNum := DeskNum (Manager l);
                   Proportions := {| MasterSlave := ps;
                                     MasterMaster := MasterMaster (Proportions (Manager l));
                                     SlaveSlave := SlaveSlave (Proportions (Manager l)) |};
                   Masters := Masters (Manager l);
                   Slaves := Slaves (Manager l) |};
     Name := Name l |}.

Definition with_MasterMaster (l : VerticalLayout) (ps : list F) : VerticalLayout :=
  {| Manager := {| DeskNum := DeskNum (Manager l);
                   Proportions := {| MasterSlave := MasterSlave (Proportions (Manager l));
                                     MasterMaster := ps;
                                     SlaveSlave := SlaveSlave (Proportions (Manager l)) |};
                   Masters := Masters (Manager l);
                   Slaves := Slaves (Manager l) |};
     Name := Name l |}.

Definition with_SlaveSlave (l : VerticalLayout) (ps : list F) : VerticalLayout :=
  {| Manager := {| DeskNum := DeskNum (Manager l);
                   Proportions := {| MasterSlave := MasterSlave (Proportions (Manager l));
                                     MasterMaster := MasterMaster (Proportions (Manager l));
                                     SlaveSlave := ps |};
                   Masters := Masters (Manager l);
                   Slaves := Slaves (Manager l) |};
     Name := Name l |}.

(** [manager] is the result of [store.CreateManager(deskNum)] and
    [proportion] is [common.Config.Proportion]. *)
Definition CreateVerticalLeftLayout (manager : store.Manager F) (proportion : F)
    : VerticalLayout :=
  with_MasterSlave {| Manager := manager; Name := "vertical-left" |}
    (SetProportions (MasterSlave (Proportions manager)) proportion 0 1).

Definition CreateVerticalRightLayout (manager : store.Manager F) (proportion : F)
    : VerticalLayout :=
  with_MasterSlave {| Manager := manager; Name := "vertical-right" |}
    (SetProportions (MasterSlave (Proportions manager)) proportion 1 0).

(** [UpdateProportions] mutates the layout's proportion slices and the
    [Directions] it is passed; both are returned.  [None] is the
    integer-division panic of [% mmax] or [% smax]. *)
Definition UpdateProportions (l : VerticalLayout) (env : Env)
    (c : ClientPtr) (d : Directions) : option (VerticalLayout * Directions) :=
  let '(_, _, dw, dh) := DesktopDimensions env in
  let '(_, _, cw, ch) := OuterGeometry env c in
  let gap := WindowGapSize env in
  let mmax := Allowed (Masters (Manager l)) in
  let smax := Allowed (Slaves (Manager l)) in
  let msize := Z.min (len (Clients (Masters (Manager l)))) mmax in
  let ssize := Z.min (len (Clients (Slaves (Manager l)))) smax in
  (* Swap values if master is on left *)
  let '(d, idxms) :=
    if String.eqb (Name l) "vertical-left"
    then ({| Top := Top d; Right := Left d; Bottom := Bottom d; Left := Right d |}, 1)
    else (d, 0) in
  let idxms := if IsMaster (Manager l) c then Z.lxor idxms 1 else idxms in
  (* Calculate proportions based on window geometry *)
  if IsMaster (Manager l) c then
    let px := fdiv (float64 (cw + 2 * gap)) (float64 dw) in
    let py := fdiv (float64 ch) (float64 (dh - (msize + 1) * gap)) in
    if mmax =? 0 then None else
    let idxmm := Z.rem (Index (Clients (Masters (Manager l))) c) mmax in
    (* Set master-slave proportions *)
    let l := if Left d
             then with_MasterSlave l
                    (SetProportions (MasterSlave (Proportions (Manager l))) px idxms (Z.lxor idxms 1))
             else l in
    (* Set master-master proportions *)
    let l := if Top d
             then with_MasterMaster l
                    (SetProportions (MasterMaster (Proportions (Manager l))) py idxmm (idxmm - 1))
             else if Bottom d
             then with_MasterMaster l
                    (SetProportions (MasterMaster (Proportions (Manager l))) py idxmm (idxmm + 1))
             else l in
    Some (l, d)
  else
    let px := fdiv (float64 (cw + gap)) (float64 dw) in
    let py := fdiv (float64 ch) (float64 (dh - (ssize + 1) * gap)) in
    if smax =? 0 then None else
    let idxss := Z.rem (Index (Clients (Slaves (Manager l))) c) smax in
    (* Set master-slave proportions *)
    let l := if Right d
             then with_MasterSlave l
                    (SetProportions (MasterSlave (Proportions (Manager l))) px idxms (Z.lxor idxms 1))
             else l in
    (* Set slave-slave proportions *)
    let l := if Top d
             then with_SlaveSlave l
                    (SetProportions (SlaveSlave (Proportions (Manager l))) py idxss (idxss - 1))
             else if Bottom d
             then with_SlaveSlave l
                    (SetProportions (SlaveSlave (Proportions (Manager l))) py idxss (idxss + 1))
             else l in
    Some (l, d).

End vertical.
Arguments VerticalLayout F : clear implicits.

End layout.

(** ** Package store: client.go, which windows are tracked *)

Module client_rules.
Import client.

Definition IsMinimized (info : Info) : bool :=
  IsInList "_NET_WM_STATE_HIDDEN" (States info).

Definition IsSticky (info : Info) : bool :=
  IsInList "_NET_WM_STATE_STICKY" (States info).

(** The window types and states of [IsSpecial]. *)
Definition special_types : list string :=
  [ "_NET_WM_WINDOW_TYPE_DOCK";
    "_NET_WM_WINDOW_TYPE_DESKTOP";
    "_NET_WM_WINDOW_TYPE_TOOLBAR";
    "_NET_WM_WINDOW_TYPE_UTILITY";
    "_NET_WM_WINDOW_TYPE_TOOLTIP";
    "_NET_WM_WINDOW_TYPE_SPLASH";
    "_NET_WM_WINDOW_TYPE_DIALOG";
    "_NET_WM_WINDOW_TYPE_COMBO";
    "_NET_WM_WINDOW_TYPE_NOTIFICATION";
    "_NET_WM_WINDOW_TYPE_DROPDOWN_MENU";
    "_NET_WM_WINDOW_TYPE_POPUP_MENU";
    "_NET_WM_WINDOW_TYPE_MENU";
    "_NET_WM_WINDOW_TYPE_DND" ].

Definition special_states : list string :=
  [ "_NET_WM_STATE_HIDDEN";
    "_NET_WM_STATE_MODAL";
    "_NET_WM_STATE_ABOVE";
    "_NET_WM_STATE_BELOW";
    "_NET_WM_STATE_SKIP_PAGER";
    "_NET_WM_STATE_SKIP_TASKBAR" ].

(** [IsSpecial]; [buildName] is [common.Build.Name].  Each loop returns at
    its first hit, which is [existsb]. *)
Definition IsSpecial (buildName : string) (info : Info) : bool :=
  (* Check internal windows *)
  if String.eqb (Class info) buildName then true
  (* Check window types *)
  else if existsb (fun typ => IsInList typ special_types) (Types info) then true
  (* Check window states *)
  else existsb (fun state => IsInList state special_states) (States info).

Section with_regexp.
(** The [regexp] library and [strings.ToLower].  [MustCompile] panics on a
    pattern that does not parse, which is [None]; [Source] is
    [Regexp.String], the text the expression was compiled from. *)
Variable Regexp : Type.
Variable MustCompile : string -> option Regexp.
Variable MatchString : Regexp -> string -> bool.
Variable Source : Regexp -> string.
Variable ToLower : string -> string.

Record ignoreSpec := { class : Regexp; name : Regexp }.

(** One round of the loop of [getWindowIgnoreList]: [s[0]] and [s[1]] panic
    on a shorter entry. *)
Definition compile_spec (s : list string) : option ignoreSpec :=
  conf_class ← s !! 0%nat;
  conf_name ← s !! 1%nat;
  cls ← MustCompile (ToLower conf_class);
  nam ← MustCompile (ToLower conf_name);
  Some {| class := cls; name := nam |}.

Fixpoint compile_specs (acc : list ignoreSpec) (conf : list (list string))
    : option (list ignoreSpec) :=
  match conf with
  | [] => Some acc
  | s :: conf' => spec ← compile_spec s; compile_specs (acc ++ [spec]) conf'
  end.

(** [getWindowIgnoreList]: [windowIgnoreList] is the package variable that
    holds the compiled list, [WindowIgnore] is [common.Config.WindowIgnore].
    The result is the list returned, which is also the new value of the
    package variable. *)
Definition getWindowIgnoreList (WindowIgnore : list (list string))
    (windowIgnoreList : list ignoreSpec) : option (list ignoreSpec) :=
  if (length windowIgnoreList =? 0)%nat && (0 <? length WindowIgnore)%nat
  then compile_specs windowIgnoreList WindowIgnore
  else Some windowIgnoreList.

(** [IsIgnored]: the answer and the package variable after the call. *)
Definition IsIgnored (WindowIgnore : list (list string))
    (windowIgnoreList : list ignoreSpec) (info : Info)
    : option (bool * list ignoreSpec) :=
  (* Check invalid windows *)
  if (String.length (Class info) =? 0)%nat then Some (true, windowIgnoreList)
  else
    (* Check ignored windows *)
    specs ← getWindowIgnoreList WindowIgnore windowIgnoreList;
    Some (existsb (fun spec =>
                     (* Ignore all windows with this class *)
                     let class_match := MatchString (class spec) (ToLower (Class info)) in
                     (* But allow the window with a special name *)
                     let name_match :=
                       negb (String.eqb (Source (name spec)) EmptyString)
                       && MatchString (name spec) (ToLower (Name info)) in
                     class_match && negb name_match) specs,
          specs).

End with_regexp.

End client_rules.

(** * Vocabulary of the properties *)

Import common store layout Exact Binary64.

(** ** The number a float64 stands for *)

(** [exact x] is the real number the value [x] denotes, when it is finite.
    [int(math.Round(x))] is then an integer nearest to it, as long as it is
    far from the bounds of [int]. *)
Class Float64Value (F : Type) `{Float64 F} := {
  exact : F -> option Q;
  int_round_nearest :
    forall x v, exact x = Some v -> (Qabs v <= inject_Z (2 ^ 62))%Q ->
                (Qabs (inject_Z (int_round x) - v) <= 1 # 2)%Q;
}.

#[export] Instance Q_value : Float64Value Q.
Proof.
  refine {| exact := Some |}.
  intros x v [= <-] _. cbn [int_round Q_float64].
  unfold round_half_away. apply Qabs_Qle_condition.
  destruct (Qle_bool 0 x) eqn:Hq.
  - pose proof (Qfloor_le (x + (1 # 2))) as H1.
    pose proof (Qlt_floor (x + (1 # 2))) as H2.
    rewrite inject_Z_plus in H2. change (inject_Z 1) with 1%Q in H2. split; lra.
  - pose proof (Qfloor_le (- x + (1 # 2))) as H1.
    pose proof (Qlt_floor (- x + (1 # 2))) as H2.
    rewrite inject_Z_plus in H2. change (inject_Z 1) with 1%Q in H2.
    rewrite inject_Z_opp. split; lra.
Defined.

(** The number of a binary64 value from its sign, mantissa and exponent. *)
Definition binary64_exact (f : float) : option Q :=
  match Prim2SF f with
  | S754_zero _ => Some 0%Q
  | S754_finite s m e =>
      let q := if 0 <=? e then inject_Z (Zpos m * 2 ^ e)
               else Qmake (Zpos m) (Z.to_pos (2 ^ (- e))) in
      Some (if s then (- q)%Q else q)
  | S754_infinity _ | S754_nan => None
  end.

#[export] Instance binary64_value : Float64Value float.
Proof.
  refine {| exact := binary64_exact |}.
  intros x v Hx Hv. cbn [int_round binary64]. unfold to_int_round.
  unfold binary64_exact in Hx.
  destruct (Prim2SF x) as [s0|s0| |s m e]; try discriminate.
  { injection Hx as <-. apply Qabs_Qle_condition. split; vm_compute; discriminate. }
  cbn zeta in Hx. injection Hx as <-.
  assert (Habs : forall (q : Q) (r : Z),
             (0 <= q)%Q -> (0 <= r)%Z ->
             (Qabs (inject_Z r - q) <= 1 # 2)%Q ->
             (Qabs (if s then - q else q) <= inject_Z (2 ^ 62))%Q ->
             (Qabs (inject_Z (let z := if s then - r else r in
                              if (- 2 ^ 63 <=? z) && (z <? 2 ^ 63)
                              then z else - 2 ^ 63)%Z
                    - (if s then - q else q)) <= 1 # 2)%Q).
  { clear. intros q r Hq Hr Hn Hb.
    assert (Hq62 : (q <= inject_Z (2 ^ 62))%Q).
    { destruct s; [rewrite Qabs_opp in Hb|]; rewrite Qabs_pos in Hb; assumption. }
    apply Qabs_Qle_condition in Hn as [Hn1 Hn2].
    assert (Hr63 : r < 2 ^ 63).
    { assert (Hrq : (inject_Z r <= inject_Z (2 ^ 62) + (1 # 2))%Q) by lra.
      assert (Hlt : (inject_Z r < inject_Z (2 ^ 63))%Q).
      { eapply Qle_lt_trans; [exact Hrq|]. vm_compute. reflexivity. }
      rewrite <- Zlt_Qlt in Hlt. exact Hlt. }
    cbn zeta. destruct s.
    - destruct (Z.leb_spec (- 2 ^ 63) (- r)); [|lia].
      destruct (Z.ltb_spec (- r) (2 ^ 63)); [|lia]. cbn [andb].
      rewrite inject_Z_opp. apply Qabs_Qle_condition. split; lra.
    - destruct (Z.leb_spec (- 2 ^ 63) r); [|lia].
      destruct (Z.ltb_spec r (2 ^ 63)); [|lia]. cbn [andb].
      apply Qabs_Qle_condition. split; lra. }
  unfold round_mantissa. destruct (Z.leb_spec 0 e) as [He|He].
  - apply Habs; [| |
      |exact Hv].
    + rewrite <- (Zle_Qle 0). apply Z.mul_nonneg_nonneg; [lia|apply Z.pow_nonneg; lia].
    + apply Z.mul_nonneg_nonneg; [lia|apply Z.pow_nonneg; lia].
    + apply Qabs_Qle_condition. split; lra.
  - set (d := 2 ^ (- e)) in *.
    assert (Hd : 0 < d) by (apply Z.pow_pos_nonneg; lia).
    replace (2 ^ (- e + 1)) with (2 * d)
      by (unfold d; rewrite Z.pow_add_r by lia; lia).
    set (r := (2 * Z.pos m + d) / (2 * d)).
    assert (Hr : - d <= 2 * (r * d - Z.pos m) <= d /\ 0 <= r).
    { pose proof (Z.div_mod (2 * Z.pos m + d) (2 * d) ltac:(lia)) as Hdm.
      pose proof (Z.mod_pos_bound (2 * Z.pos m + d) (2 * d) ltac:(lia)) as Hb.
      fold r in Hdm. split; [nia|]. apply Z.div_pos; lia. }
    destruct Hr as [Hr Hr0].
    apply Habs; [| exact Hr0 | |exact Hv].
    + unfold Qle. cbn. lia.
    + apply Qabs_Qle_condition.
      assert (Hp : Z.pos (Z.to_pos d) = d) by (apply Z2Pos.id; exact Hd).
      split; unfold Qle, Qminus, Qplus, Qopp, inject_Z; cbn [Qnum Qden];
        rewrite ?Pos.mul_1_l, ?Hp; lia.
Defined.

(** ** Reading the environment *)

Definition desktop_x (env : Env) : Z := (DesktopDimensions env).1.1.1.
Definition desktop_y (env : Env) : Z := (DesktopDimensions env).1.1.2.
Definition desktop_width (env : Env) : Z := (DesktopDimensions env).1.2.
Definition desktop_height (env : Env) : Z := (DesktopDimensions env).2.
Definition client_width (env : Env) (c : ClientPtr) : Z := (OuterGeometry env c).1.2.
Definition client_height (env : Env) (c : ClientPtr) : Z := (OuterGeometry env c).2.

(** The height a partition of [size] visible clients shares out: the desktop
    height minus [size + 1] gaps. *)
Definition available_height (env : Env) (size : Z) : Z :=
  desktop_height env - (size + 1) * WindowGapSize env.

Definition msize {F} (l : VerticalLayout F) : Z :=
  Z.min (len (Clients (Masters (Manager l)))) (Allowed (Masters (Manager l))).
Definition ssize {F} (l : VerticalLayout F) : Z :=
  Z.min (len (Clients (Slaves (Manager l)))) (Allowed (Slaves (Manager l))).

(** ** Resizes *)

(** The edge a client shares with the other partition, as the caller sets
    it: in vertical-left the master's right edge and the slave's left edge,
    otherwise the master's left edge and the slave's right edge. *)
Definition cross_boundary_moved {F} (l : VerticalLayout F) (c : ClientPtr)
    (d : Directions) : bool :=
  if String.eqb (Name l) "vertical-left"
  then (if IsMaster (Manager l) c then Right d else Left d)
  else (if IsMaster (Manager l) c then Left d else Right d).

(** [Allowed] of the partition [UpdateProportions] treats [c] as a member
    of: the masters for a master, the slaves for every other client. *)
Definition partition_allowed {F} (l : VerticalLayout F) (c : ClientPtr) : Z :=
  if IsMaster (Manager l) c then Allowed (Masters (Manager l))
  else Allowed (Slaves (Manager l)).

(** A resize of the scenario's clients: every client reports an outer
    geometry of 1334x530. *)
Definition resize_env : Env :=
  {| DesktopDimensions := (0, 0, 1920, 1080);
     WindowGapSize := 5;
     OuterGeometry := fun _ => (5, 5, 1334, 530) |}.

(** ** Requests of a client *)

Definition is_move (r : client.Request) : bool :=
  match r with
  | client.MoveresizeWindow _ _ _ _ _ | client.MoveWindowReq _ _ _ => true
  | client.WmStateReq _ _ _ => false
  end.


(** ** The 1 master + 3 slaves scenario *)

Definition scenario_layout {F} (ms mm ss : list F) : VerticalLayout F :=
  {| Manager := {| DeskNum := 0;
                   Proportions := {| MasterSlave := ms; MasterMaster := mm; SlaveSlave := ss |};
                   Masters := {| Clients := [1%positive]; Allowed := 1 |};
                   Slaves := {| Clients := [2%positive; 3%positive; 4%positive]; Allowed := 3 |} |};
     Name := "vertical-left" |}.

Definition scenario_env : Env :=
  {| DesktopDimensions := (0, 0, 1920, 1080);
     WindowGapSize := 5;
     OuterGeometry := fun _ => (0, 0, 0, 0) |}.

Definition scenario_placements : list Placement :=
  [ {| client := 1%positive; px := 5; py := 5; pw := 1142; ph := 1070 |};
    {| client := 2%positive; px := 1152; py := 5; pw := 763; ph := 353 |};
    {| client := 3%positive; px := 1152; py := 363; pw := 763; ph := 353 |};
    {| client := 4%positive; px := 1152; py := 721; pw := 763; ph := 353 |} ].

(** ** The two columns of one pass *)

(** What a placement keeps of its row: the client, its top edge and its
    height. *)
Definition row (p : Placement) : ClientPtr * Z * Z := (client p, py p, ph p).

(** Every placement of [ps] has left edge [x] and width [w]. *)
Definition in_column (x w : Z) (ps : list Placement) : Prop :=
  Forall (fun p => px p = x /\ pw p = w) ps.

Definition csize {F} (l : VerticalLayout F) : Z := len (AllClients (Manager l)).

(** The proportion vectors are long enough for every index [Do] reads:
    [MasterSlave[0]], [MasterMaster[i % msize]] and [SlaveSlave[i % ssize]]. *)
Definition vectors_cover {F} (l : VerticalLayout F) : Prop :=
  1 <= len (MasterSlave (Proportions (Manager l)))
  /\ msize l <= len (MasterMaster (Proportions (Manager l)))
  /\ ssize l <= len (SlaveSlave (Proportions (Manager l))).

Definition allowed_positive {F} (l : VerticalLayout F) : Prop :=
  0 < Allowed (Masters (Manager l)) /\ 0 < Allowed (Slaves (Manager l)).

(** The guard of the swap of the two areas in [Do]. *)
Definition swaps {F} (l : VerticalLayout F) : bool :=
  String.eqb (Name l) "vertical-right" && (Allowed (Masters (Manager l)) <? csize l).

(** The width [mw] that [Do] computes from [MasterSlave[0]]. *)
Definition cut_of {F} `{Float64 F} (env : Env) (p0 : F) : Z :=
  int_round (fmul (float64 (desktop_width env)) p0).

(** The master loop of [Do], with [mx] and [mw] as they are when the loop
    starts. *)
Definition master_column {F} `{Float64 F} (l : VerticalLayout F) (env : Env) (p0 : F)
    : option (list Placement) :=
  if 0 <? msize l then
    column_loop (desktop_y env) (desktop_height env) (WindowGapSize env)
      ((if swaps l then desktop_x env + cut_of env p0 else desktop_x env) + WindowGapSize env)
      ((if ssize l =? 0 then desktop_width env
        else if swaps l then desktop_width env - cut_of env p0 else cut_of env p0)
       - 2 * WindowGapSize env)
      (Allowed (Masters (Manager l))) (msize l)
      (MasterMaster (Proportions (Manager l))) 0 0 (Clients (Masters (Manager l)))
  else Some [].

(** The slave loop of [Do], with [sx] and [sw] as they are when the loop
    starts. *)
Definition slave_column {F} `{Float64 F} (l : VerticalLayout F) (env : Env) (p0 : F)
    : option (list Placement) :=
  if 0 <? ssize l then
    column_loop (desktop_y env) (desktop_height env) (WindowGapSize env)
      (if msize l =? 0 then desktop_x env + WindowGapSize env
       else if swaps l then desktop_x env + WindowGapSize env
       else desktop_x env + cut_of env p0)
      ((if msize l =? 0 then desktop_width env - WindowGapSize env
        else if swaps l then cut_of env p0 else desktop_width env - cut_of env p0)
       - WindowGapSize env)
      (Allowed (Slaves (Manager l))) (ssize l)
      (SlaveSlave (Proportions (Manager l))) 0 0 (Clients (Slaves (Manager l)))
  else Some [].

(** ** The two variants of one manager *)

Definition vertical_left {F} (mg : store.Manager F) : VerticalLayout F :=
  {| Manager := mg; Name := "vertical-left" |}.
Definition vertical_right {F} (mg : store.Manager F) : VerticalLayout F :=
  {| Manager := mg; Name := "vertical-right" |}.

Definition master_slave_cut {F} `{Float64 F} (mg : store.Manager F) (env : Env) : option Z :=
  p0 ← index (MasterSlave (Proportions mg)) 0;
  Some (int_round (fmul (float64 (desktop_width env)) p0)).

Definition masters_left_of_slaves (ms ss : list Placement) : Prop :=
  forall m s, m ∈ ms -> s ∈ ss -> px m + pw m <= px s.
Definition masters_right_of_slaves (ms ss : list Placement) : Prop :=
  forall m s, m ∈ ms -> s ∈ ss -> px s + pw s <= px m.

(** The mirror property for every configuration: vertical-left has every
    master to the left of every slave and vertical-right has every master to
    the right of every slave. *)
Definition mirrors {F} `{Float64 F} (mg : store.Manager F) (env : Env) : Prop :=
  forall L R,
    Do (vertical_left mg) env = Some L -> Do (vertical_right mg) env = Some R ->
    let nm := length (Clients (Masters mg)) in
    masters_left_of_slaves (take nm L) (drop nm L)
    /\ masters_right_of_slaves (take nm R) (drop nm R).

(** The mirror property of the code.  Both variants give every client the
    same top edge and height.  With at most [Masters.Allowed] clients they
    give the same rectangles.  With more, and both partitions occupied,
    vertical-left puts the masters left of the cut and the slaves right of
    it, and vertical-right puts the slaves left of the cut and the masters
    right of it, the cut being [round (dw * MasterSlave[0])] in both. *)
Definition mirrors_above_allowed {F} `{Float64 F} (mg : store.Manager F) (env : Env) : Prop :=
  exists L R,
    Do (vertical_left mg) env = Some L
    /\ Do (vertical_right mg) env = Some R
    /\ map row L = map row R
    /\ (csize (vertical_left mg) <= Allowed (Masters mg) -> R = L)
    /\ (Allowed (Masters mg) < csize (vertical_left mg) ->
        0 < msize (vertical_left mg) -> 0 < ssize (vertical_left mg) ->
        exists cut,
          master_slave_cut mg env = Some cut
          /\ let nm := length (Clients (Masters mg)) in
             let dx := desktop_x env in
             let dw := desktop_width env in
             let gap := WindowGapSize env in
             in_column (dx + gap) (cut - 2 * gap) (take nm L)
             /\ in_column (dx + cut) (dw - cut - gap) (drop nm L)
             /\ in_column (dx + cut + gap) (dw - cut - 2 * gap) (take nm R)
             /\ in_column (dx + gap) (cut - gap) (drop nm R)).

(** ** Stacked rows *)


(** [int(math.Round(float64(dh - (size+1)*gap) * p))] *)
Definition row_height {F} `{Float64 F} (dh gap size : Z) (p : F) : Z :=
  int_round (fmul (float64 (dh - (size + 1) * gap)) p).



Definition Zsum (hs : list Z) : Z := foldr Z.add 0 hs.

(** ** Tiling the desktop *)

Definition inside_x (env : Env) (p : Placement) : Prop :=
  desktop_x env + WindowGapSize env <= px p
  /\ px p + pw p <= desktop_x env + desktop_width env - WindowGapSize env.





(** ** Sizes *)


(** Sizes within which no [int] operation of a pass overflows and every
    [int] converts to [float64] without error, so that [Z] stands for [int]:
    the desktop, the gap, the cut and the row heights are at most [2^30] in
    magnitude and there are at most [2^20] clients. *)
Definition modest (z : Z) : Prop := Z.abs z <= 2 ^ 30.

Definition int_sized {F} `{Float64 F} (l : VerticalLayout F) (env : Env) : Prop :=
  modest (desktop_x env) /\ modest (desktop_y env)
  /\ modest (desktop_width env) /\ modest (desktop_height env)
  /\ modest (WindowGapSize env)
  /\ len (AllClients (Manager l)) <= 2 ^ 20
  /\ Forall (fun q => modest (row_height (desktop_height env) (WindowGapSize env) (msize l) q))
       (take (Z.to_nat (msize l)) (MasterMaster (Proportions (Manager l))))
  /\ Forall (fun q => modest (row_height (desktop_height env) (WindowGapSize env) (ssize l) q))
       (take (Z.to_nat (ssize l)) (SlaveSlave (Proportions (Manager l))))
  /\ (forall cut, master_slave_cut (Manager l) env = Some cut -> modest cut).

(** ** Tiling up to rounding *)

(** What the rounded heights of a column exceed the available height by. *)
Definition column_excess (env : Env) (col : list Placement) : Z :=
  Zsum (map ph col) - available_height env (len col).







(** ** Rounding row by row *)




(** ** Rectangles *)

Definition rectangle (p : Placement) : Z * Z * Z * Z := (px p, py p, pw p, ph p).

(** The rectangle each client was last given by a list of placements. *)
Definition apply_placements (ps : list Placement)
    (g : gmap ClientPtr (Z * Z * Z * Z)) : gmap ClientPtr (Z * Z * Z * Z) :=
  foldl (fun g p => <[client p := rectangle p]> g) g ps.

(** ** Further layouts *)

(** Two masters sharing the height evenly, no slave. *)
Definition two_masters {F} (half one : F) (name : string) : VerticalLayout F :=
  {| Manager := {| DeskNum := 0;
                   Proportions := {| MasterSlave := [half; half];
                                     MasterMaster := [half; half];
                                     SlaveSlave := [one] |};
                   Masters := {| Clients := [1%positive; 2%positive]; Allowed := 2 |};
                   Slaves := {| Clients := []; Allowed := 1 |} |};
     Name := name |}.

(** One master where two are allowed, and one slave. *)
Definition spare_master {F} (half one : F) : store.Manager F :=
  {| DeskNum := 0;
     Proportions := {| MasterSlave := [half; half];
                       MasterMaster := [half; half];
                       SlaveSlave := [one] |};
     Masters := {| Clients := [1%positive]; Allowed := 2 |};
     Slaves := {| Clients := [2%positive]; Allowed := 1 |} |}.

(** Two masters where one is allowed, no slave, masters on the right. *)
Definition crowded_masters {F} (half one : F) : VerticalLayout F :=
  {| Manager := {| DeskNum := 0;
                   Proportions := {| MasterSlave := [half; half];
                                     MasterMaster := [one];
                                     SlaveSlave := [one] |};
                   Masters := {| Clients := [1%positive; 2%positive]; Allowed := 1 |};
                   Slaves := {| Clients := []; Allowed := 1 |} |};
     Name := "vertical-right" |}.

(** The scenario in exact arithmetic, and its manager. *)
Definition scenario_exact : VerticalLayout Q :=
  scenario_layout [6 # 10; 4 # 10]%Q [1%Q] [1 # 3; 1 # 3; 1 # 3]%Q.

Definition scenario_manager : store.Manager Q := Manager scenario_exact.

(** A client with frame extents, under the lock. *)
Definition terminal_info : client.Info :=
  {| client.Class := "xterm"; client.Name := "shell"; client.Types := [];
     client.States := [];
     client.Loc := {| client.Desktop := 0%N; client.Screen := 0%N |};
     client.Dims := {| client.Geom := {| client.X := 0; client.Y := 0;
                                          client.Width := 640; client.Height := 480 |};
                       client.Extents := {| client.ExtLeft := 1; client.ExtRight := 1;
                                            client.ExtTop := 20; client.ExtBottom := 1 |};
                       client.AdjPos := true; client.AdjSize := true;
                       client.AdjRestore := false |} |}.

Definition locked_terminal : client.Client :=
  {| client.Win := 77%N; client.Original := terminal_info; client.Cached := terminal_info;
     client.Latest := terminal_info; client.Locked := true |}.

(** ** More of one pass *)

(** The clients one pass sends a request for: a partition is laid out when
    its visible size is positive. *)
Definition laid_out_masters {F} (l : VerticalLayout F) : list ClientPtr :=
  if 0 <? msize l then Clients (Masters (Manager l)) else [].

Definition laid_out_slaves {F} (l : VerticalLayout F) : list ClientPtr :=
  if 0 <? ssize l then Clients (Slaves (Manager l)) else [].

Definition laid_out {F} (l : VerticalLayout F) : list ClientPtr :=
  laid_out_masters l ++ laid_out_slaves l.

(** Rows [a] and [b] of a column get the same rectangle whenever [a] and [b]
    are equal modulo [amax]. *)
Definition wraps_every (amax : Z) (col : list Placement) : Prop :=
  forall (a b : nat) pa pb,
    col !! a = Some pa -> col !! b = Some pb ->
    Z.of_nat a mod amax = Z.of_nat b mod amax ->
    rectangle pa = rectangle pb.

(** ** What a resize feeds back *)

(** The entry of [MasterSlave] that [UpdateProportions] sets for a resize of
    [c]: [idxms] after the two updates of it. *)
Definition master_slave_entry {F} (l : VerticalLayout F) (c : ClientPtr) : Z :=
  if String.eqb (Name l) "vertical-left"
  then (if IsMaster (Manager l) c then 0 else 1)
  else (if IsMaster (Manager l) c then 1 else 0).

(** The value [px] that [UpdateProportions] computes for [c]: its outer
    width and the gaps of its column over the desktop width. *)
Definition width_share {F} `{Float64 F} (l : VerticalLayout F) (env : Env) (c : ClientPtr) : F :=
  if IsMaster (Manager l) c
  then fdiv (float64 (client_width env c + 2 * WindowGapSize env)) (float64 (desktop_width env))
  else fdiv (float64 (client_width env c + WindowGapSize env)) (float64 (desktop_width env)).

(** [d.Left] and [d.Right] exchanged. *)
Definition swap_left_right (d : Directions) : Directions :=
  {| Top := Top d; Right := Left d; Bottom := Bottom d; Left := Right d |}.

(** The entry of [MasterMaster] or [SlaveSlave] that [UpdateProportions]
    sets for a resize of [c]: [idxmm] or [idxss]. *)
Definition row_entry {F} (l : VerticalLayout F) (c : ClientPtr) : Z :=
  if IsMaster (Manager l) c
  then Z.rem (Index (Clients (Masters (Manager l))) c) (Allowed (Masters (Manager l)))
  else Z.rem (Index (Clients (Slaves (Manager l))) c) (Allowed (Slaves (Manager l))).

(** The vector of the partition [UpdateProportions] treats [c] as a member
    of, and the visible size of that partition. *)
Definition row_vector {F} (l : VerticalLayout F) (c : ClientPtr) : list F :=
  if IsMaster (Manager l) c then MasterMaster (Proportions (Manager l))
  else SlaveSlave (Proportions (Manager l)).

Definition partition_size {F} (l : VerticalLayout F) (c : ClientPtr) : Z :=
  if IsMaster (Manager l) c then msize l else ssize l.

(** The layout with the row vector of the partition of [c] replaced. *)
Definition with_row_vector {F} (l : VerticalLayout F) (c : ClientPtr) (ps : list F)
    : VerticalLayout F :=
  if IsMaster (Manager l) c then with_MasterMaster l ps else with_SlaveSlave l ps.

(** The top or bottom edge that moved has no entry of the row vector on its
    other side: it is the top edge of the row of entry 0 or, the top edge
    unmoved, the bottom edge of the row of the last entry. *)
Definition outer_row_edge {F} (l : VerticalLayout F) (c : ClientPtr) (d : Directions) : Prop :=
  (Top d = true -> row_entry l c = 0)
  /\ (Top d = false -> Bottom d = true -> len (row_vector l c) <= row_entry l c + 1).

(** A move that touches neither the edge shared with the other partition
    nor an edge shared with a neighbour of its own partition: a top edge
    moves in the first row only and a bottom edge in the last visible row
    only. *)
Definition touches_no_boundary {F} (l : VerticalLayout F) (c : ClientPtr) (d : Directions)
    : Prop :=
  cross_boundary_moved l c d = false
  /\ (Top d = true -> row_entry l c = 0)
  /\ (Bottom d = true -> row_entry l c + 1 = partition_size l c).

(** The call leaves the layout as it was. *)
Definition updates_no_proportion {F} `{Float64 F}
    (SetProportions : list F -> F -> Z -> Z -> list F)
    (l : VerticalLayout F) (env : Env) (c : ClientPtr) (d : Directions) : Prop :=
  forall l' d', UpdateProportions SetProportions l env c d = Some (l', d') -> l' = l.

(** The value [py] that [UpdateProportions] computes for [c]: its outer
    height over the available height of its partition. *)
Definition height_share {F} `{Float64 F} (l : VerticalLayout F) (env : Env) (c : ClientPtr) : F :=
  fdiv (float64 (client_height env c))
       (float64 (available_height env (partition_size l c))).

(** The width [Do] gives the column of the entry [e] of [MasterSlave], gaps
    included: the cut for entry 0 and the rest of the desktop width for
    entry 1. *)
Definition side_width (dw cut e : Z) : Z := if e =? 0 then cut else dw - cut.

(** The layout agrees with itself on the side of the masters: [Do] puts
    them left unless it swaps, [UpdateProportions] takes them to be left
    exactly in vertical-left. *)
Definition orientation_agrees {F} (l : VerticalLayout F) : Prop :=
  Name l = "vertical-left" \/ swaps l = true.

(** ** The requests of a move *)

(** The requests of an unlocked [MoveWindow] that take the window out of
    the maximized and fullscreen states. *)
Definition unmaximize_requests (c : client.Client) : list client.Request :=
  if client.IsMaximized (client.Latest c)
  then [client.WmStateReq (client.Win c) false "_NET_WM_STATE_MAXIMIZED_VERT";
        client.WmStateReq (client.Win c) false "_NET_WM_STATE_MAXIMIZED_HORZ"]
  else [].

Definition unfullscreen_requests (c : client.Client) : list client.Request :=
  if client.IsFullscreen (client.Latest c)
  then [client.WmStateReq (client.Win c) false "_NET_WM_STATE_FULLSCREEN"]
  else [].

(** The frame offsets of a move: the decoration extents in force. *)
Definition position_offset (c : client.Client) : Z * Z :=
  let d := client.Dims (client.Latest c) in
  if client.AdjPos d
  then (client.ExtLeft (client.Extents d), client.ExtTop (client.Extents d))
  else (0, 0).

Definition size_offset (c : client.Client) : Z * Z :=
  let d := client.Dims (client.Latest c) in
  if client.AdjSize d
  then (client.ExtLeft (client.Extents d) + client.ExtRight (client.Extents d),
        client.ExtTop (client.Extents d) + client.ExtBottom (client.Extents d))
  else (0, 0).

Definition valid_class (i : client.Info) : Prop := client.Class i <> EmptyString.

(** ** Further inputs *)

(** A layout without clients. *)
Definition empty_layout (ms : list Q) : VerticalLayout Q :=
  {| Manager := {| DeskNum := 0;
                   Proportions := {| MasterSlave := ms;
                                     MasterMaster := [1%Q];
                                     SlaveSlave := [1%Q] |};
                   Masters := {| Clients := []; Allowed := 1 |};
                   Slaves := {| Clients := []; Allowed := 1 |} |};
     Name := "vertical-left" |}.

(** One master and three slaves where two slaves are allowed. *)
Definition wrapped_slaves : VerticalLayout Q :=
  {| Manager := {| DeskNum := 0;
                   Proportions := {| MasterSlave := [1 # 2; 1 # 2]%Q;
                                     MasterMaster := [1%Q];
                                     SlaveSlave := [1 # 2; 1 # 2]%Q |};
                   Masters := {| Clients := [1%positive]; Allowed := 1 |};
                   Slaves := {| Clients := [2%positive; 3%positive; 4%positive];
                                Allowed := 2 |} |};
     Name := "vertical-left" |}.

(** The scenario after its pass: every client reports the rectangle it was
    given. *)
Definition scenario_placed_env : Env :=
  {| DesktopDimensions := (0, 0, 1920, 1080);
     WindowGapSize := 5;
     OuterGeometry := fun c =>
       default (0, 0, 0, 0) (apply_placements scenario_placements ∅ !! c) |}.

(** One master and two slaves where three slaves are allowed: [SlaveSlave]
    has an entry more than there are rows. *)
Definition two_of_three_slaves : VerticalLayout Q :=
  {| Manager := {| DeskNum := 0;
                   Proportions := {| MasterSlave := [1 # 2; 1 # 2]%Q;
                                     MasterMaster := [1%Q];
                                     SlaveSlave := [1 # 3; 1 # 3; 1 # 3]%Q |};
                   Masters := {| Clients := [1%positive]; Allowed := 1 |};
                   Slaves := {| Clients := [2%positive; 3%positive]; Allowed := 3 |} |};
     Name := "vertical-left" |}.

(** The master of a vertical-right layout that does not swap, at six tenths
    of the width. *)
Definition unswapped_right : VerticalLayout Q :=
  {| Manager := {| DeskNum := 0;
                   Proportions := {| MasterSlave := [6 # 10; 4 # 10]%Q;
                                     MasterMaster := [1 # 2; 1 # 2]%Q;
                                     SlaveSlave := [1%Q] |};
                   Masters := {| Clients := [1%positive]; Allowed := 2 |};
                   Slaves := {| Clients := [2%positive]; Allowed := 1 |} |};
     Name := "vertical-right" |}.

Definition unlocked_terminal : client.Client := client.set_Locked false locked_terminal.

(** A minimized window. *)
Definition hidden_info : client.Info :=
  {| client.Class := "xterm"; client.Name := "shell"; client.Types := [];
     client.States := ["_NET_WM_STATE_MAXIMIZED_VERT"; "_NET_WM_STATE_HIDDEN"];
     client.Loc := client.Loc terminal_info;
     client.Dims := client.Dims terminal_info |}.

(** Expressions that match the strings they are spelt as. *)
Definition literal_compile (s : string) : option string := Some s.
Definition literal_match (re s : string) : bool := String.eqb re s.
Definition literal_source (re : string) : string := re.
Definition keep_case (s : string) : string := s.

(** Two masters with shares [a] and [b] of the height, no slave. *)
Definition uneven_masters {F} (a b one : F) : VerticalLayout F :=
  {| Manager := {| DeskNum := 0;
                   Proportions := {| MasterSlave := [a; b];
                                     MasterMaster := [a; b];
                                     SlaveSlave := [one] |};
                   Masters := {| Clients := [1%positive; 2%positive]; Allowed := 2 |};
                   Slaves := {| Clients := []; Allowed := 1 |} |};
     Name := "vertical-left" |}.

(** Two slaves and no master, masters on the right. *)
Definition crowded_slaves {F} (half one : F) : VerticalLayout F :=
  {| Manager := {| DeskNum := 0;
                   Proportions := {| MasterSlave := [half; half];
                                     MasterMaster := [one];
                                     SlaveSlave := [half; half] |};
                   Masters := {| Clients := []; Allowed := 1 |};
                   Slaves := {| Clients := [1%positive; 2%positive]; Allowed := 2 |} |};
     Name := "vertical-right" |}.

(** The scenario in binary64. *)
Definition scenario_binary64 : VerticalLayout float :=
  scenario_layout [0x1.3333333333333p-1; 0x1.999999999999ap-2]%float [1%float]
    [PrimFloat.div 1 3; PrimFloat.div 1 3; PrimFloat.div 1 3].

(** ** Passes in a row *)

(** [Client.MoveResize] is absent from the sources; [client.go] has the
    method under the name [MoveWindow], with the arguments [Do] passes, and
    it is taken for it. *)
Definition MoveResize (getInfo : client.Window -> client.Info) (p : Placement)
    : client.M unit :=
  client.MoveWindow getInfo (px p) (py p) (pw p) (ph p).

(** The clients behind the pointers of a layout. *)
Abbreviation Clients_store := (gmap ClientPtr client.Client).

(** One call [c.MoveResize(x, y, w, h)] of [Do]: the client behind the
    pointer is read and written and its requests are sent.  A pointer with
    no client behind it is [None]. *)
Definition move_resize (getInfo : client.Window -> client.Info) (st : Clients_store)
    (p : Placement) : option (Clients_store * list client.Request) :=
  c ← st !! client p;
  let '(_, c', reqs) := MoveResize getInfo p c in
  Some (<[client p := c']> st, reqs).

(** The calls of one pass, in their order: the clients after the last and
    the requests of each. *)
Fixpoint move_resize_each (getInfo : client.Window -> client.Info)
    (ps : list Placement) (st : Clients_store)
    : option (Clients_store * list (list client.Request)) :=
  match ps with
  | [] => Some (st, [])
  | p :: ps' =>
      r ← move_resize getInfo st p;
      r' ← move_resize_each getInfo ps' r.1;
      Some (r'.1, r.2 :: r'.2)
  end.

(** A layout and the clients its pointers lead to. *)
Record World (F : Type) := {
  world_layout : VerticalLayout F;
  world_clients : Clients_store;
}.
Arguments world_layout {F} _.
Arguments world_clients {F} _.

(** What one pass asks for and what it sends: the rectangle of every call
    and the requests of every call. *)
Definition Pass : Type := list Placement * list (list client.Request).

(** One call of [Do] with its calls of [MoveResize] carried out.  [Do]
    assigns to no field of the layout, and what it computes depends on no
    client: the rectangles are those of [layout.Do] and the clients are
    written by [MoveResize] only. *)
Definition DoPass {F} `{Float64 F} (getInfo : client.Window -> client.Info) (env : Env)
    (w : World F) : option (Pass * World F) :=
  ps ← Do (world_layout w) env;
  r ← move_resize_each getInfo ps (world_clients w);
  Some ((ps, r.2), {| world_layout := world_layout w; world_clients := r.1 |}).

(** [n] calls of [Do] in a row: each pass, and the world after the last. *)
Fixpoint DoTimes {F} `{Float64 F} (getInfo : client.Window -> client.Info) (n : nat)
    (env : Env) (w : World F) : option (list Pass * World F) :=
  match n with
  | O => Some ([], w)
  | S n =>
      r ← DoPass getInfo env w;
      r' ← DoTimes getInfo n env r.2;
      Some (r.1 :: r'.1, r'.2)
  end.

(** The client after [Update]: the latest information is what the server
    reports, unless the report has no class. *)
Definition refreshed (getInfo : client.Window -> client.Info) (c : client.Client)
    : client.Client :=
  let info := getInfo (client.Win c) in
  if (String.length (client.Class info) =? 0)%nat then c else client.set_Latest info c.

(** The client after one [MoveResize]. *)
Definition moved (getInfo : client.Window -> client.Info) (c : client.Client)
    : client.Client :=
  if client.Locked c then client.set_Locked false c else refreshed getInfo c.

(** The requests of one [MoveResize] of an unlocked client. *)
Definition move_requests (c : client.Client) (p : Placement) : list client.Request :=
  unmaximize_requests c ++ unfullscreen_requests c
  ++ [if (0 <? pw p) && (0 <? ph p)
      then client.MoveresizeWindow (client.Win c)
             (px p + (position_offset c).1) (py p + (position_offset c).2)
             (pw p - (size_offset c).1) (ph p - (size_offset c).2)
      else client.MoveWindowReq (client.Win c)
             (px p + (position_offset c).1) (py p + (position_offset c).2)].

(** A client no further pass changes: it is not locked and its latest
    information is what the server reports. *)
Definition settled (getInfo : client.Window -> client.Info) (c : client.Client) : Prop :=
  client.Locked c = false /\ refreshed getInfo c = c.




(** The scenario with its four clients behind their pointers, the first
    under the lock. *)
Definition scenario_world : World Q :=
  {| world_layout := scenario_exact;
     world_clients := {[ 1%positive := locked_terminal; 2%positive := unlocked_terminal;
                         3%positive := unlocked_terminal; 4%positive := unlocked_terminal ]} |}.

Definition scenario_server (w : client.Window) : client.Info := terminal_info.

(** * Properties *)

(** C5.  One master and three slaves, [MasterSlave = [0.6, 0.4]], desktop
    1920x1080 at the origin, gap 5, vertical-left: the master spans x from 5
    to 5 + 1142 = 1147 and the three slaves are stacked in the remaining
    column, each of height 353, the nearest integer to (1080 - 4*5)/3.  The
    result is the same in exact arithmetic and in binary64. *)
Theorem Do_scenario_one_master_three_slaves :
  Do (F := Q) (scenario_layout [6 # 10; 4 # 10] [1] [1 # 3; 1 # 3; 1 # 3])%Q scenario_env
    = Some scenario_placements
  /\ Do (F := float)
       (scenario_layout [0x1.3333333333333p-1; 0x1.999999999999ap-2] [1]
          [PrimFloat.div 1 3; PrimFloat.div 1 3; PrimFloat.div 1 3])%float scenario_env
    = Some scenario_placements.
Proof. split; vm_compute; reflexivity. Qed.

(** ** Slices *)

Lemma index_Some_lookup {A} (s : list A) (i : Z) (a : A) :
  index s i = Some a <-> 0 <= i /\ s !! Z.to_nat i = Some a.
Proof.
  unfold index. destruct (Z.ltb_spec i 0); split; try discriminate; try lia; intuition.
Qed.

Lemma index_in_range {A} (s : list A) (i : Z) :
  0 <= i < len s -> exists a, index s i = Some a.
Proof.
  intros Hi. unfold index, len in *. destruct (Z.ltb_spec i 0); [lia|].
  apply lookup_lt_is_Some_2. lia.
Qed.

(** ** SetProportions and the sum of a vector *)



Lemma SetProportions_out_of_range floor ps value i j :
  i = j \/ i < 0 \/ len ps <= i \/ j < 0 \/ len ps <= j ->
  SetProportions floor ps value i j = ps.
Proof.
  intros Hr. unfold SetProportions.
  destruct (Z.eqb_spec i j), (Z.ltb_spec i 0), (Z.leb_spec (len ps) i),
    (Z.ltb_spec j 0), (Z.leb_spec (len ps) j); cbn; try reflexivity; lia.
Qed.








(** ** UpdateProportions: which vector a resize changes *)

Section update_proportions.
Context {F : Type} `{Float64 F}.
Variable SetProportions : list F -> F -> Z -> Z -> list F.

Lemma with_MasterSlave_same (l : VerticalLayout F) :
  with_MasterSlave l (MasterSlave (Proportions (Manager l))) = l.
Proof. destruct l as [[? [? ? ?] ? ?] ?]. reflexivity. Qed.

Lemma UpdateProportions_master l env c d :
  IsMaster (Manager l) c = true ->
  Allowed (Masters (Manager l)) <> 0 ->
  exists l' d',
    UpdateProportions SetProportions l env c d = Some (l', d')
    /\ SlaveSlave (Proportions (Manager l')) = SlaveSlave (Proportions (Manager l))
    /\ MasterMaster (Proportions (Manager l')) =
         (let py := fdiv (float64 (client_height env c))
                      (float64 (available_height env (msize l))) in
          let idx := Z.rem (Index (Clients (Masters (Manager l))) c)
                       (Allowed (Masters (Manager l))) in
          if Top d
          then SetProportions (MasterMaster (Proportions (Manager l))) py idx (idx - 1)
          else if Bottom d
               then SetProportions (MasterMaster (Proportions (Manager l))) py idx (idx + 1)
               else MasterMaster (Proportions (Manager l)))
    /\ (Top d = false -> Bottom d = false -> exists ms, l' = with_MasterSlave l ms)
    /\ (cross_boundary_moved l c d = false -> Top d = false -> Bottom d = false -> l' = l).
Proof.
  intros Hm Hmax.
  unfold UpdateProportions, cross_boundary_moved, client_height, available_height,
    desktop_height, msize.
  destruct (DesktopDimensions env) as [[[dx dy] dw] dh].
  destruct (OuterGeometry env c) as [[[cx cy] cw] ch].
  rewrite Hm. apply Z.eqb_neq in Hmax.
  destruct (String.eqb (Name l) "vertical-left"); cbn [Top Right Bottom Left fst snd];
    rewrite Hmax;
    destruct d as [t r b lf]; cbn [Top Right Bottom Left];
    destruct t, r, b, lf; eexists _, _; (split; [reflexivity|]); cbn;
    repeat split; try reflexivity; try discriminate; intros;
    try (eexists; reflexivity);
    exists (MasterSlave (Proportions (Manager l)));
    symmetry; apply with_MasterSlave_same.
Qed.

Lemma UpdateProportions_slave l env c d :
  IsMaster (Manager l) c = false ->
  Allowed (Slaves (Manager l)) <> 0 ->
  exists l' d',
    UpdateProportions SetProportions l env c d = Some (l', d')
    /\ MasterMaster (Proportions (Manager l')) = MasterMaster (Proportions (Manager l))
    /\ SlaveSlave (Proportions (Manager l')) =
         (let py := fdiv (float64 (client_height env c))
                      (float64 (available_height env (ssize l))) in
          let idx := Z.rem (Index (Clients (Slaves (Manager l))) c)
                       (Allowed (Slaves (Manager l))) in
          if Top d
          then SetProportions (SlaveSlave (Proportions (Manager l))) py idx (idx - 1)
          else if Bottom d
               then SetProportions (SlaveSlave (Proportions (Manager l))) py idx (idx + 1)
               else SlaveSlave (Proportions (Manager l)))
    /\ (Top d = false -> Bottom d = false -> exists ms, l' = with_MasterSlave l ms)
    /\ (cross_boundary_moved l c d = false -> Top d = false -> Bottom d = false -> l' = l).
Proof.
  intros Hm Hmax.
  unfold UpdateProportions, cross_boundary_moved, client_height, available_height,
    desktop_height, ssize.
  destruct (DesktopDimensions env) as [[[dx dy] dw] dh].
  destruct (OuterGeometry env c) as [[[cx cy] cw] ch].
  rewrite Hm. apply Z.eqb_neq in Hmax.
  destruct (String.eqb (Name l) "vertical-left"); cbn [Top Right Bottom Left fst snd];
    rewrite Hmax;
    destruct d as [t r b lf]; cbn [Top Right Bottom Left];
    destruct t, r, b, lf; eexists _, _; (split; [reflexivity|]); cbn;
    repeat split; try reflexivity; try discriminate; intros;
    try (eexists; reflexivity);
    exists (MasterSlave (Proportions (Manager l)));
    symmetry; apply with_MasterSlave_same.
Qed.

Lemma with_MasterMaster_same (l : VerticalLayout F) :
  with_MasterMaster l (MasterMaster (Proportions (Manager l))) = l.
Proof. destruct l as [[? [? ? ?] ? ?] ?]. reflexivity. Qed.

Lemma with_SlaveSlave_same (l : VerticalLayout F) :
  with_SlaveSlave l (SlaveSlave (Proportions (Manager l))) = l.
Proof. destruct l as [[? [? ? ?] ? ?] ?]. reflexivity. Qed.

Lemma with_row_vector_same (l : VerticalLayout F) c :
  with_row_vector l c (row_vector l c) = l.
Proof.
  unfold with_row_vector, row_vector. destruct (IsMaster (Manager l) c);
    [apply with_MasterMaster_same|apply with_SlaveSlave_same].
Qed.

(** A call for a client whose edge to the other partition did not move
    leaves [MasterSlave] alone and sets the row vector of the client's
    partition. *)
Lemma UpdateProportions_rows l env c d :
  partition_allowed l c <> 0 -> cross_boundary_moved l c d = false ->
  exists d',
    UpdateProportions SetProportions l env c d
    = Some (with_row_vector l c
              (if Top d
               then SetProportions (row_vector l c) (height_share l env c)
                      (row_entry l c) (row_entry l c - 1)
               else if Bottom d
                    then SetProportions (row_vector l c) (height_share l env c)
                           (row_entry l c) (row_entry l c + 1)
                    else row_vector l c), d').
Proof.
  unfold partition_allowed, cross_boundary_moved, with_row_vector, row_vector, row_entry,
    height_share, partition_size, UpdateProportions, client_height, available_height,
    desktop_height, msize, ssize.
  destruct (DesktopDimensions env) as [[[dx dy] dw] dh].
  destruct (OuterGeometry env c) as [[[cx cy] cw] ch].
  intros Hmax Hcross.
  destruct (IsMaster (Manager l) c); apply Z.eqb_neq in Hmax;
    destruct (String.eqb (Name l) "vertical-left"); cbn [Top Right Bottom Left fst snd];
    rewrite Hmax, ?Hcross;
    destruct d as [t r b lf]; cbn [Top Right Bottom Left] in *;
    destruct t, b; eexists; rewrite ?with_MasterMaster_same, ?with_SlaveSlave_same;
    reflexivity.
Qed.

(** C6.  A call returns when the [Allowed] of the client's partition is not
    zero.  With [Top] and [Bottom] unset the layout it leaves differs from
    the one it was given in the [MasterSlave] vector at most: [MasterMaster]
    and [SlaveSlave] (and the clients) are unchanged, whatever
    [SetProportions] does; if besides the edge shared with the other
    partition did not move, the layout is unchanged altogether.  A call for
    an outer edge of a column (the top edge of the row of entry 0, or the
    bottom edge of the row of the last entry of the vector), the shared edge
    unmoved, leaves the layout unchanged as well, given that
    [SetProportions] ignores a paired index outside the vector. *)
Theorem UpdateProportions_column_boundary_frame l env c d :
  partition_allowed l c <> 0 ->
  exists l' d',
    UpdateProportions SetProportions l env c d = Some (l', d')
    /\ (Top d = false -> Bottom d = false ->
        (exists ms, l' = with_MasterSlave l ms)
        /\ MasterMaster (Proportions (Manager l')) = MasterMaster (Proportions (Manager l))
        /\ SlaveSlave (Proportions (Manager l')) = SlaveSlave (Proportions (Manager l))
        /\ (cross_boundary_moved l c d = false -> l' = l))
    /\ ((forall ps v i j, j < 0 \/ len ps <= j -> SetProportions ps v i j = ps) ->
        cross_boundary_moved l c d = false -> outer_row_edge l c d -> l' = l).
Proof.
  intros Ha.
  assert (exists l' d',
             UpdateProportions SetProportions l env c d = Some (l', d')
             /\ (Top d = false -> Bottom d = false ->
                 (exists ms, l' = with_MasterSlave l ms)
                 /\ MasterMaster (Proportions (Manager l'))
                    = MasterMaster (Proportions (Manager l))
                 /\ SlaveSlave (Proportions (Manager l'))
                    = SlaveSlave (Proportions (Manager l))
                 /\ (cross_boundary_moved l c d = false -> l' = l)))
    as (l' & d' & Hu & Hframe).
  { pose proof Ha as Ha'. unfold partition_allowed in Ha'.
    destruct (IsMaster (Manager l) c) eqn:Hm.
    - destruct (UpdateProportions_master l env c d Hm Ha')
        as (l' & d' & Hu & Hss & Hmm & Hms & Hid).
      exists l', d'. split; [exact Hu|]. intros Ht Hb.
      rewrite Ht, Hb in Hmm. cbn in Hmm. auto 10.
    - destruct (UpdateProportions_slave l env c d Hm Ha')
        as (l' & d' & Hu & Hmm & Hss & Hms & Hid).
      exists l', d'. split; [exact Hu|]. intros Ht Hb.
      rewrite Ht, Hb in Hss. cbn in Hss. auto 10. }
  exists l', d'. split; [exact Hu|]. split; [exact Hframe|].
  intros Hout Hcross [Htop Hbot].
  destruct (UpdateProportions_rows l env c d Ha Hcross) as [d2 Hr].
  rewrite Hu in Hr. injection Hr as -> _.
  destruct (Top d) eqn:Ht.
  - rewrite Hout by (left; rewrite (Htop eq_refl); lia). apply with_row_vector_same.
  - destruct (Bottom d) eqn:Hb.
    + rewrite Hout by (right; specialize (Hbot eq_refl eq_refl); lia).
      apply with_row_vector_same.
    + apply with_row_vector_same.
Qed.

(** C9.  For a master, a call returns and leaves in [MasterMaster] what
    [SetProportions] makes of it for the value [ch / (dh - (msize+1)*gap)],
    the client's new height over its partition's available height, at the
    client's index wrapped by [Masters.Allowed], paired with the index above
    when [Top] is set and, [Top] unset, with the index below when [Bottom]
    is set; [SlaveSlave] is unchanged.  For any other client the same holds
    with [SlaveSlave], [ssize] and [Slaves.Allowed], and [MasterMaster] is
    unchanged. *)
Theorem UpdateProportions_row_boundary l env c d :
  partition_allowed l c <> 0 ->
  exists l' d',
    UpdateProportions SetProportions l env c d = Some (l', d')
    /\ (IsMaster (Manager l) c = true ->
          let py := fdiv (float64 (client_height env c))
                      (float64 (available_height env (msize l))) in
          let idx := Z.rem (Index (Clients (Masters (Manager l))) c)
                       (Allowed (Masters (Manager l))) in
          SlaveSlave (Proportions (Manager l')) = SlaveSlave (Proportions (Manager l))
          /\ (Top d = true ->
                MasterMaster (Proportions (Manager l')) =
                  SetProportions (MasterMaster (Proportions (Manager l))) py idx (idx - 1))
          /\ (Top d = false -> Bottom d = true ->
                MasterMaster (Proportions (Manager l')) =
                  SetProportions (MasterMaster (Proportions (Manager l))) py idx (idx + 1)))
    /\ (IsMaster (Manager l) c = false ->
          let py := fdiv (float64 (client_height env c))
                      (float64 (available_height env (ssize l))) in
          let idx := Z.rem (Index (Clients (Slaves (Manager l))) c)
                       (Allowed (Slaves (Manager l))) in
          MasterMaster (Proportions (Manager l')) = MasterMaster (Proportions (Manager l))
          /\ (Top d = true ->
                SlaveSlave (Proportions (Manager l')) =
                  SetProportions (SlaveSlave (Proportions (Manager l))) py idx (idx - 1))
          /\ (Top d = false -> Bottom d = true ->
                SlaveSlave (Proportions (Manager l')) =
                  SetProportions (SlaveSlave (Proportions (Manager l))) py idx (idx + 1))).
Proof.
  intros Ha. unfold partition_allowed in Ha.
  destruct (IsMaster (Manager l) c) eqn:Hm.
  - destruct (UpdateProportions_master l env c d Hm Ha)
      as (l' & d' & Hu & Hss & Hmm & _).
    exists l', d'. split; [exact Hu|]. split; [|discriminate].
    intros _. cbn zeta in *. split; [exact Hss|].
    split; [intros Ht | intros Ht Hb]; rewrite Hmm, Ht; [|rewrite Hb]; reflexivity.
  - destruct (UpdateProportions_slave l env c d Hm Ha)
      as (l' & d' & Hu & Hmm & Hss & _).
    exists l', d'. split; [exact Hu|]. split; [discriminate|].
    intros _. cbn zeta in *. split; [exact Hmm|].
    split; [intros Ht | intros Ht Hb]; rewrite Hss, Ht; [|rewrite Hb]; reflexivity.
Qed.

End update_proportions.

Lemma UpdateProportions_column_boundary_frame_witness :
  let l := scenario_layout [1 # 2; 1 # 2]%Q [1%Q] [1 # 3; 1 # 3; 1 # 3]%Q in
  let d := {| Top := false; Right := false; Bottom := true; Left := false |} in
  partition_allowed l 4%positive <> 0
  /\ cross_boundary_moved l 4%positive d = false
  /\ outer_row_edge l 4%positive d
  /\ exists d', UpdateProportions (SetProportions (1 # 10)) l resize_env 4%positive d
                = Some (l, d').
Proof.
  intros l d.
  assert (Ha : partition_allowed l 4%positive <> 0) by (vm_compute; discriminate).
  assert (Ho : outer_row_edge l 4%positive d).
  { split; [discriminate|]. intros _ _. vm_compute. discriminate. }
  split; [exact Ha|]. split; [reflexivity|]. split; [exact Ho|].
  destruct (UpdateProportions_column_boundary_frame (SetProportions (1 # 10)) l resize_env
              4%positive d Ha) as (l' & d' & Hu & _ & Hl).
  exists d'. rewrite Hu, (Hl (fun ps v i j Hj =>
                               SetProportions_out_of_range (1 # 10) ps v i j
                                 (or_intror (or_intror (or_intror Hj))))
                            eq_refl Ho).
  reflexivity.
Defined.

(** The outer edge of the last row is not always without a neighbour in the
    vector.  With two slaves where three are allowed [SlaveSlave] has three
    entries; the last slave dragged by its bottom edge touches no boundary,
    and yet its entry is set against the third, the entry of no row. *)
Lemma UpdateProportions_last_row_spare_entry :
  let l := two_of_three_slaves in
  let d := {| Top := false; Right := false; Bottom := true; Left := false |} in
  touches_no_boundary l 3%positive d
  /\ ~ updates_no_proportion (SetProportions (1 # 10)) l resize_env 3%positive d
  /\ exists l' d',
       UpdateProportions (SetProportions (1 # 10)) l resize_env 3%positive d = Some (l', d')
       /\ Forall2 Qeq (SlaveSlave (Proportions (Manager l'))) [1 # 3; 106 # 213; 12 # 71]%Q.
Proof.
  intros l d. split; [|split].
  - split; [reflexivity|]. split; [discriminate|]. intros _. reflexivity.
  - intros Hn. specialize (Hn _ _ eq_refl). vm_compute in Hn. discriminate.
  - eexists _, _. split; [vm_compute; reflexivity|].
    cbn. repeat constructor; reflexivity.
Qed.

Lemma UpdateProportions_row_boundary_witness :
  let l := scenario_layout [1 # 2; 1 # 2]%Q [1%Q] [1 # 3; 1 # 3; 1 # 3]%Q in
  let d := {| Top := false; Right := false; Bottom := true; Left := false |} in
  partition_allowed l 2%positive <> 0
  /\ exists l' d',
       UpdateProportions (SetProportions (1 # 10)) l resize_env 2%positive d = Some (l', d')
       /\ SlaveSlave (Proportions (Manager l')) =
            SetProportions (1 # 10) [1 # 3; 1 # 3; 1 # 3]%Q (530 / 1060)%Q 0 1.
Proof.
  intros l d.
  assert (Ha : partition_allowed l 2%positive <> 0) by (vm_compute; discriminate).
  split; [exact Ha|].
  destruct (UpdateProportions_row_boundary (SetProportions (1 # 10)) l resize_env
              2%positive d Ha) as (l' & d' & Hu & _ & Hs).
  exists l', d'. split; [exact Hu|].
  destruct (Hs eq_refl) as (_ & _ & Hb). exact (Hb eq_refl eq_refl).
Defined.

(** The resize of the design document: the master of a vertical-left layout
    is dragged from half to 0.7 of the desktop width (outer width 1334 and
    two gaps of 5 over 1920).  [MasterSlave] becomes [0.7, 0.3] and the other
    two vectors are untouched. *)
Example UpdateProportions_drag_master_to_seven_tenths :
  exists l' d',
    UpdateProportions (SetProportions (1 # 10))
      (scenario_layout [1 # 2; 1 # 2]%Q [1%Q] [1 # 3; 1 # 3; 1 # 3]%Q) resize_env 1%positive
      {| Top := false; Right := true; Bottom := false; Left := false |} = Some (l', d')
    /\ Forall2 Qeq (MasterSlave (Proportions (Manager l'))) [7 # 10; 3 # 10]%Q
    /\ MasterMaster (Proportions (Manager l')) = [1%Q]
    /\ SlaveSlave (Proportions (Manager l')) = [1 # 3; 1 # 3; 1 # 3]%Q.
Proof.
  eexists _, _. split; [vm_compute; reflexivity|].
  cbn. repeat split; repeat constructor; reflexivity.
Qed.

(** The outer edges of a column: the last slave dragged by its bottom edge
    and the first slave dragged by its top edge have no neighbour on that
    side, the index paired with theirs is out of the vector, and the layout
    is left as it was. *)
Example UpdateProportions_outer_edges :
  let l := scenario_layout [1 # 2; 1 # 2]%Q [1%Q] [1 # 3; 1 # 3; 1 # 3]%Q in
  (exists d', UpdateProportions (SetProportions (1 # 10)) l resize_env 4%positive
                {| Top := false; Right := false; Bottom := true; Left := false |}
              = Some (l, d'))
  /\ (exists d', UpdateProportions (SetProportions (1 # 10)) l resize_env 2%positive
                  {| Top := true; Right := false; Bottom := false; Left := false |}
                = Some (l, d')).
Proof. split; eexists; vm_compute; reflexivity. Qed.

(** ** MoveWindow under the lock *)

Lemma MoveWindow_locked getInfo c x y w h :
  client.Locked c = true ->
  client.MoveWindow getInfo x y w h c = (tt, client.set_Locked false c, []).
Proof.
  intros HL. unfold client.MoveWindow, client.bind, client.this. cbn. rewrite HL.
  reflexivity.
Qed.

Lemma MoveWindow_unlocked getInfo c x y w h :
  client.Locked c = false ->
  exists c' reqs,
    client.MoveWindow getInfo x y w h c = (tt, c', reqs)
    /\ length (filter is_move reqs) = 1%nat
    /\ client.Locked c' = false.
Proof.
  intros HL. unfold client.MoveWindow, client.bind, client.this.
  cbn -[client.UnMaximize client.UnFullscreen client.Update]. rewrite HL.
  unfold client.UnMaximize, client.UnFullscreen, client.Update, client.bind,
    client.this, client.ret, client.send, client.put.
  repeat (match goal with
          | |- context [if ?b then _ else _] => destruct b
          end; cbn);
    eexists _, _; (split; [reflexivity|]); cbn; auto.
Qed.

(** C10.  [MoveWindow] on a locked client sends no request and returns the
    client with [Locked] cleared and every other field, [Latest] included,
    as it was.  The call after it is not discarded: it sends exactly one
    move or move-resize request.  So one move is lost per [Lock]. *)
Theorem MoveWindow_locked_discards_one_move getInfo c x y w h :
  client.Locked c = true ->
  client.MoveWindow getInfo x y w h c = (tt, client.set_Locked false c, [])
  /\ client.Latest (client.set_Locked false c) = client.Latest c
  /\ forall x' y' w' h',
       exists c' reqs,
         client.MoveWindow getInfo x' y' w' h' (client.set_Locked false c) = (tt, c', reqs)
         /\ length (filter is_move reqs) = 1%nat.
Proof.
  intros HL. split; [apply MoveWindow_locked, HL|]. split; [reflexivity|].
  intros x' y' w' h'.
  destruct (MoveWindow_unlocked getInfo (client.set_Locked false c) x' y' w' h' eq_refl)
    as (c' & reqs & Hm & Hr & _).
  eauto.
Qed.

(** ** The columns of [Do] *)

Section columns.
Context {F : Type} `{Float64 F}.

Lemma Do_columns l env :
  Do l env =
    p0 ← index (MasterSlave (Proportions (Manager l))) 0;
    ms ← master_column l env p0;
    ss ← slave_column l env p0;
    Some (ms ++ ss).
Proof.
  unfold Do, master_column, slave_column, cut_of, swaps, csize, msize, ssize,
    desktop_x, desktop_y, desktop_width, desktop_height.
  destruct (DesktopDimensions env) as [[[dx dy] dw] dh]. cbn [fst snd].
  destruct (index (MasterSlave (Proportions (Manager l))) 0) as [p0|]; [|reflexivity].
  cbn [mbind option_bind].
  destruct (String.eqb (Name l) "vertical-right"
            && (Allowed (Masters (Manager l)) <? len (AllClients (Manager l))));
    cbn [mbind option_bind];
    destruct (0 <? Z.min (len (Clients (Masters (Manager l)))) (Allowed (Masters (Manager l))));
    destruct (0 <? Z.min (len (Clients (Slaves (Manager l)))) (Allowed (Slaves (Manager l))));
    destruct (Z.min (len (Clients (Masters (Manager l)))) (Allowed (Masters (Manager l))) =? 0);
    destruct (Z.min (len (Clients (Slaves (Manager l)))) (Allowed (Slaves (Manager l))) =? 0);
    reflexivity.
Qed.

Lemma column_loop_returns dy dh gap x w amax size ps i y cs :
  0 < size -> size <= len ps -> 0 <= i ->
  exists r, column_loop dy dh gap x w amax size ps i y cs = Some r.
Proof.
  intros Hs Hl. revert i y. induction cs as [|c cs IH]; intros i y Hi; [eexists; reflexivity|].
  cbn [column_loop].
  destruct (index_in_range ps (Z.rem i size)) as [p Hp].
  { pose proof (Z.rem_bound_pos i size Hi Hs). lia. }
  rewrite Hp. cbn [mbind option_bind].
  edestruct IH as [r Hr]; [|rewrite Hr; eexists; reflexivity]. lia.
Qed.

Lemma column_loop_shape dy dh gap x w amax size ps i y cs r :
  column_loop dy dh gap x w amax size ps i y cs = Some r ->
  map client r = cs /\ in_column x w r.
Proof.
  revert i y r. induction cs as [|c cs IH]; intros i y r.
  - intros [= <-]. split; [reflexivity|constructor].
  - cbn [column_loop]. destruct (index ps (Z.rem i size)) as [p|]; [|discriminate].
    cbn [mbind option_bind].
    destruct (column_loop dy dh gap x w amax size ps (i + 1) _ cs) as [r'|] eqn:Hr;
      [|discriminate].
    cbn. intros [= <-]. destruct (IH _ _ _ Hr) as [Hc Hx].
    split; [cbn; f_equal; exact Hc|]. constructor; [split; reflexivity|exact Hx].
Qed.

Lemma column_loop_rows dy dh gap x w x' w' amax size ps i y cs :
  fmap (M := option) (map row) (column_loop dy dh gap x w amax size ps i y cs)
  = fmap (map row) (column_loop dy dh gap x' w' amax size ps i y cs).
Proof.
  revert i y. induction cs as [|c cs IH]; intros i y; [reflexivity|].
  cbn [column_loop]. destruct (index ps (Z.rem i size)) as [p|]; [|reflexivity].
  cbn [mbind option_bind]. specialize (IH (i + 1) ((if Z.rem i amax =? 0 then dy + gap else y)
     + int_round (fmul (float64 (dh - (size + 1) * gap)) p) + gap)).
  destruct (column_loop dy dh gap x w amax size ps (i + 1) _ cs) as [r|];
    destruct (column_loop dy dh gap x' w' amax size ps (i + 1) _ cs) as [r'|];
    cbn in *; try discriminate; [|reflexivity].
  injection IH as IH. rewrite IH. reflexivity.
Qed.

End columns.


(** ** One partition empty *)

Section single.
Context {F : Type} `{Float64 F}.

Lemma len_nil {A} : len (@nil A) = 0.
Proof. reflexivity. Qed.

Lemma len_pos {A} (s : list A) : s <> [] -> 0 < len s.
Proof. destruct s; [congruence|]. unfold len. cbn. lia. Qed.

Lemma in_column_weaken x w ps : in_column x w ps -> Forall (fun p => pw p = w) ps.
Proof. intros Hx. eapply Forall_impl; [exact Hx|]. intros p [_ Hw]. exact Hw. Qed.

Lemma Do_masters_only l env :
  allowed_positive l -> vectors_cover l ->
  Clients (Slaves (Manager l)) = [] -> Clients (Masters (Manager l)) <> [] ->
  exists ps,
    Do l env = Some ps
    /\ map client ps = Clients (Masters (Manager l))
    /\ in_column ((if swaps l then desktop_x env +
                      match index (MasterSlave (Proportions (Manager l))) 0 with
                      | Some p0 => cut_of env p0 | None => 0 end
                   else desktop_x env) + WindowGapSize env)
         (desktop_width env - 2 * WindowGapSize env) ps.
Proof.
  intros [Hm Hs] (Hms & Hmm & Hss) Hsl Hma.
  rewrite Do_columns.
  destruct (index_in_range (MasterSlave (Proportions (Manager l))) 0) as [p0 Hp0]; [lia|].
  rewrite Hp0. cbn [mbind option_bind].
  pose proof (len_pos _ Hma) as Hlen.
  assert (Hsz : ssize l = 0) by (unfold ssize; rewrite Hsl, len_nil; lia).
  assert (Hmz : 0 < msize l) by (unfold msize; lia).
  unfold slave_column, master_column. rewrite Hsz.
  destruct (Z.ltb_spec 0 (msize l)); [|lia]. cbn [Z.ltb Z.compare Z.eqb].
  edestruct (column_loop_returns (desktop_y env) (desktop_height env) (WindowGapSize env))
    as [r Hr]; [exact Hmz | exact Hmm | reflexivity |].
  rewrite Hr. cbn [mbind option_bind]. exists (r ++ []). split; [reflexivity|].
  rewrite app_nil_r. apply column_loop_shape in Hr. exact Hr.
Qed.

Lemma Do_slaves_only l env :
  allowed_positive l -> vectors_cover l ->
  Clients (Masters (Manager l)) = [] -> Clients (Slaves (Manager l)) <> [] ->
  exists ps,
    Do l env = Some ps
    /\ map client ps = Clients (Slaves (Manager l))
    /\ in_column (desktop_x env + WindowGapSize env)
         (desktop_width env - 2 * WindowGapSize env) ps.
Proof.
  intros [Hm Hs] (Hms & Hmm & Hss) Hma Hsl.
  rewrite Do_columns.
  destruct (index_in_range (MasterSlave (Proportions (Manager l))) 0) as [p0 Hp0]; [lia|].
  rewrite Hp0. cbn [mbind option_bind].
  pose proof (len_pos _ Hsl) as Hlen.
  assert (Hmz : msize l = 0) by (unfold msize; rewrite Hma, len_nil; lia).
  assert (Hsz : 0 < ssize l) by (unfold ssize; lia).
  unfold slave_column, master_column. rewrite Hmz.
  destruct (Z.ltb_spec 0 (ssize l)); [|lia]. cbn [Z.ltb Z.compare Z.eqb mbind option_bind].
  edestruct (column_loop_returns (desktop_y env) (desktop_height env) (WindowGapSize env))
    as [r Hr]; [exact Hsz | exact Hss | reflexivity |].
  rewrite Hr. cbn [mbind option_bind]. exists r. split; [reflexivity|].
  apply column_loop_shape in Hr.
  replace (desktop_width env - 2 * WindowGapSize env)
    with (desktop_width env - WindowGapSize env - WindowGapSize env) by lia.
  exact Hr.
Qed.

Lemma swaps_false (l : VerticalLayout F) :
  Name l <> "vertical-right" \/ csize l <= Allowed (Masters (Manager l)) ->
  swaps l = false.
Proof.
  unfold swaps. intros [Hn|Hc].
  - apply String.eqb_neq in Hn. rewrite Hn. reflexivity.
  - apply andb_false_intro2. apply Z.ltb_ge. exact Hc.
Qed.

(** One partition empty.  With no slave, every master is given the full
    desktop width minus
    a gap on either side, and with no master every slave is; the split by
    [MasterSlave] is not applied.  The master column then starts one gap
    right of the desktop's left edge in vertical-left, and in vertical-right
    whenever the masters are at most [Masters.Allowed]; the slave column
    always does.  A single client with no slave spans the full width. *)
Theorem Do_single_partition_full_width l env :
  allowed_positive l -> vectors_cover l ->
  (Clients (Slaves (Manager l)) = [] -> Clients (Masters (Manager l)) <> [] ->
     exists ps,
       Do l env = Some ps
       /\ map client ps = Clients (Masters (Manager l))
       /\ Forall (fun p => pw p = desktop_width env - 2 * WindowGapSize env) ps
       /\ (Name l <> "vertical-right"
           \/ len (Clients (Masters (Manager l))) <= Allowed (Masters (Manager l)) ->
           in_column (desktop_x env + WindowGapSize env)
             (desktop_width env - 2 * WindowGapSize env) ps))
  /\ (Clients (Masters (Manager l)) = [] -> Clients (Slaves (Manager l)) <> [] ->
        exists ps,
          Do l env = Some ps
          /\ map client ps = Clients (Slaves (Manager l))
          /\ in_column (desktop_x env + WindowGapSize env)
               (desktop_width env - 2 * WindowGapSize env) ps)
  /\ (forall c, Clients (Masters (Manager l)) = [c] -> Clients (Slaves (Manager l)) = [] ->
        exists p,
          Do l env = Some [p] /\ client p = c
          /\ px p = desktop_x env + WindowGapSize env
          /\ pw p = desktop_width env - 2 * WindowGapSize env).
Proof.
  intros Ha Hv. split; [|split].
  - intros Hsl Hma. destruct (Do_masters_only l env Ha Hv Hsl Hma) as (ps & Hd & Hc & Hx).
    exists ps. split; [exact Hd|]. split; [exact Hc|].
    split; [exact (in_column_weaken _ _ _ Hx)|].
    intros Hn. rewrite swaps_false in Hx; [exact Hx|].
    destruct Hn as [Hn|Hn]; [left; exact Hn|right].
    unfold csize, AllClients. rewrite Hsl, app_nil_r. exact Hn.
  - apply Do_slaves_only; assumption.
  - intros c Hma Hsl.
    destruct (Do_masters_only l env Ha Hv Hsl) as (ps & Hd & Hc & Hx); [rewrite Hma; discriminate|].
    rewrite Hma in Hc. destruct ps as [|p [|q ps]]; try discriminate.
    exists p. split; [exact Hd|]. injection Hc as Hc. split; [exact Hc|].
    rewrite swaps_false in Hx.
    + apply Forall_inv in Hx. exact Hx.
    + right. unfold csize, AllClients. rewrite Hsl, Hma. destruct Ha as [Ha _].
      unfold len. cbn. lia.
Qed.
End single.


(** ** vertical-left and vertical-right *)

Section mirror.
Context {F : Type} `{Float64 F}.

Lemma swaps_left (mg : store.Manager F) : swaps (vertical_left mg) = false.
Proof. reflexivity. Qed.

Lemma swaps_right (mg : store.Manager F) :
  swaps (vertical_right mg) = (Allowed (Masters mg) <? csize (vertical_left mg)).
Proof. reflexivity. Qed.

Lemma fmap_rows_app (a b a' b' : option (list Placement)) :
  fmap (M := option) (map row) a = fmap (map row) a' ->
  fmap (M := option) (map row) b = fmap (map row) b' ->
  fmap (M := option) (map row) (ms ← a; ss ← b; Some (ms ++ ss))
  = fmap (map row) (ms ← a'; ss ← b'; Some (ms ++ ss)).
Proof.
  destruct a, a', b, b'; cbn; try discriminate; try reflexivity.
  intros [= E1] [= E2]. rewrite !map_app, E1, E2. reflexivity.
Qed.

Lemma Do_rows_same (mg : store.Manager F) env :
  fmap (M := option) (map row) (Do (vertical_left mg) env)
  = fmap (map row) (Do (vertical_right mg) env).
Proof.
  rewrite !Do_columns. cbn [Manager vertical_left vertical_right].
  destruct (index (MasterSlave (Proportions mg)) 0) as [p0|]; [|reflexivity].
  cbn [mbind option_bind].
  apply fmap_rows_app.
  - unfold master_column. change (msize (vertical_right mg)) with (msize (vertical_left mg)).
    destruct (0 <? msize (vertical_left mg)); [|reflexivity].
    apply column_loop_rows.
  - unfold slave_column. change (ssize (vertical_right mg)) with (ssize (vertical_left mg)).
    destruct (0 <? ssize (vertical_left mg)); [|reflexivity].
    apply column_loop_rows.
Qed.

Lemma Do_right_no_swap (mg : store.Manager F) env :
  csize (vertical_left mg) <= Allowed (Masters mg) ->
  Do (vertical_right mg) env = Do (vertical_left mg) env.
Proof.
  intros Hc. rewrite !Do_columns. unfold master_column, slave_column.
  rewrite swaps_left, swaps_right.
  destruct (Z.ltb_spec (Allowed (Masters mg)) (csize (vertical_left mg))); [lia|].
  reflexivity.
Qed.

Lemma Do_returns (l : VerticalLayout F) env :
  vectors_cover l ->
  exists p0 ms ss,
    index (MasterSlave (Proportions (Manager l))) 0 = Some p0
    /\ master_column l env p0 = Some ms
    /\ slave_column l env p0 = Some ss
    /\ Do l env = Some (ms ++ ss).
Proof.
  intros (Hms & Hmm & Hss).
  destruct (index_in_range (MasterSlave (Proportions (Manager l))) 0) as [p0 Hp0]; [lia|].
  assert (exists ms, master_column l env p0 = Some ms) as [ms Hm].
  { unfold master_column. destruct (Z.ltb_spec 0 (msize l)); [|eexists; reflexivity].
    apply column_loop_returns; [assumption..|reflexivity]. }
  assert (exists ss, slave_column l env p0 = Some ss) as [ss Hs].
  { unfold slave_column. destruct (Z.ltb_spec 0 (ssize l)); [|eexists; reflexivity].
    apply column_loop_returns; [assumption..|reflexivity]. }
  exists p0, ms, ss. rewrite Do_columns, Hp0. cbn. rewrite Hm, Hs. cbn. auto.
Qed.

Lemma master_column_shape (l : VerticalLayout F) env p0 ms :
  0 < msize l -> master_column l env p0 = Some ms ->
  map client ms = Clients (Masters (Manager l))
  /\ in_column ((if swaps l then desktop_x env + cut_of env p0 else desktop_x env)
                + WindowGapSize env)
       ((if ssize l =? 0 then desktop_width env
         else if swaps l then desktop_width env - cut_of env p0 else cut_of env p0)
        - 2 * WindowGapSize env) ms.
Proof.
  intros Hm. unfold master_column. destruct (Z.ltb_spec 0 (msize l)); [|lia].
  apply column_loop_shape.
Qed.

Lemma slave_column_shape (l : VerticalLayout F) env p0 ss :
  0 < ssize l -> slave_column l env p0 = Some ss ->
  map client ss = Clients (Slaves (Manager l))
  /\ in_column (if msize l =? 0 then desktop_x env + WindowGapSize env
                else if swaps l then desktop_x env + WindowGapSize env
                else desktop_x env + cut_of env p0)
       ((if msize l =? 0 then desktop_width env - WindowGapSize env
         else if swaps l then cut_of env p0 else desktop_width env - cut_of env p0)
        - WindowGapSize env) ss.
Proof.
  intros Hm. unfold slave_column. destruct (Z.ltb_spec 0 (ssize l)); [|lia].
  apply column_loop_shape.
Qed.

(** The two variants as the code has them.  vertical-left and
    vertical-right give every
    client the same top edge and height.  They put the master column and
    the slave column on swapped sides of the same cut exactly when the
    layout holds more clients than [Masters.Allowed] and both partitions
    are occupied; with at most [Masters.Allowed] clients vertical-right
    places every client as vertical-left does. *)
Theorem Do_mirror_above_allowed (mg : store.Manager F) env :
  vectors_cover (vertical_left mg) -> mirrors_above_allowed mg env.
Proof.
  intros Hv. unfold mirrors_above_allowed.
  destruct (Do_returns (vertical_left mg) env Hv) as (p0 & msL & ssL & Hp0 & HmL & HsL & HL).
  destruct (Do_returns (vertical_right mg) env Hv) as (p0' & msR & ssR & Hp0' & HmR & HsR & HR).
  cbn [Manager vertical_left vertical_right] in *.
  rewrite Hp0 in Hp0'. injection Hp0' as <-.
  exists (msL ++ ssL), (msR ++ ssR). split; [exact HL|]. split; [exact HR|].
  split.
  { pose proof (Do_rows_same mg env) as Hr. rewrite HL, HR in Hr. cbn in Hr.
    injection Hr as Hr. exact Hr. }
  split.
  { intros Hc. pose proof (Do_right_no_swap mg env Hc) as E. rewrite HL, HR in E.
    injection E as E. exact E. }
  intros Hc Hm Hs. exists (cut_of env p0).
  split; [unfold master_slave_cut; rewrite Hp0; reflexivity|].
  apply (master_column_shape (vertical_left mg)) in HmL as [HcL HxL]; [|exact Hm].
  apply (slave_column_shape (vertical_left mg)) in HsL as [HcL' HxL']; [|exact Hs].
  apply (master_column_shape (vertical_right mg)) in HmR as [HcR HxR]; [|exact Hm].
  apply (slave_column_shape (vertical_right mg)) in HsR as [HcR' HxR']; [|exact Hs].
  change (msize (vertical_right mg)) with (msize (vertical_left mg)) in *.
  change (ssize (vertical_right mg)) with (ssize (vertical_left mg)) in *.
  rewrite swaps_left in *. rewrite swaps_right in *.
  destruct (Z.ltb_spec (Allowed (Masters mg)) (csize (vertical_left mg))); [|lia].
  destruct (Z.eqb_spec (msize (vertical_left mg)) 0); [lia|].
  destruct (Z.eqb_spec (ssize (vertical_left mg)) 0); [lia|].
  cbn [Manager vertical_left vertical_right] in *.
  cbn zeta.
  assert (HnL : length msL = length (Clients (Masters mg))) by (rewrite <- HcL, length_map; done).
  assert (HnR : length msR = length (Clients (Masters mg))) by (rewrite <- HcR, length_map; done).
  rewrite <- HnL at 1 2. rewrite <- HnR.
  rewrite !take_app_length, !drop_app_length.
  repeat split.
  - exact HxL.
  - exact HxL'.
  - exact HxR.
  - exact HxR'.
Qed.

End mirror.


(** ** Stacks *)

Section stacks.
Context {F : Type} `{Float64 F}.



End stacks.










(** ** Heights *)











(** ** Lengths *)


Lemma len_zero {A} (s : list A) : len s = 0 -> s = [].
Proof. destruct s; [reflexivity|]. unfold len. cbn. lia. Qed.


(** ** Columns side by side *)



(** ** Columns without wrap *)



Section any_float.
Context {F : Type} `{Float64Value F}.






End any_float.

(** ** One pass tiles the desktop, rounding row by row *)

Section tiling.
Context {F : Type} `{Float64Value F}.




End tiling.

(** Two masters share 1065 pixels evenly: both heights round up to 533 and
    the second master ends at 1076, one pixel below the desktop minus the
    gap. *)
Lemma Do_two_masters_overflow_bottom :
  Do (two_masters (1 # 2)%Q 1%Q "vertical-left") scenario_env
    = Some [ {| client := 1%positive; px := 5; py := 5; pw := 1910; ph := 533 |};
             {| client := 2%positive; px := 5; py := 543; pw := 1910; ph := 533 |} ]
  /\ Do (two_masters 0x1p-1%float 1%float "vertical-left") scenario_env
    = Some [ {| client := 1%positive; px := 5; py := 5; pw := 1910; ph := 533 |};
             {| client := 2%positive; px := 5; py := 543; pw := 1910; ph := 533 |} ].
Proof. split; vm_compute; reflexivity. Qed.


(** The variants do not mirror each other in every configuration: with one
    master where two are
    allowed and one slave the layout holds no more clients than
    [Masters.Allowed], and vertical-right leaves the master on the left of
    the slave. *)
Lemma Do_right_without_swap_not_mirrored :
  ~ mirrors (spare_master (1 # 2)%Q 1%Q) scenario_env
  /\ ~ mirrors (spare_master 0x1p-1%float 1%float) scenario_env.
Proof.
  split; intros Hm; destruct (Hm _ _ eq_refl eq_refl) as [_ Hr];
    specialize (Hr {| client := 1%positive; px := 5; py := 5; pw := 950; ph := 535 |}
                   {| client := 2%positive; px := 960; py := 5; pw := 955; ph := 1070 |});
    cbv in Hr; apply Hr; [left|left|reflexivity|left|left|reflexivity].
Qed.



(** C4.  One master where two are allowed and one slave: the clients do not
    outnumber [Masters.Allowed], the areas are not swapped, and
    vertical-right places the master on the left of the slave, rectangle by
    rectangle as vertical-left does, in exact arithmetic and in binary64. *)
Theorem Do_right_with_spare_master_keeps_left :
  let m := {| client := 1%positive; px := 5; py := 5; pw := 950; ph := 535 |} in
  let s := {| client := 2%positive; px := 960; py := 5; pw := 955; ph := 1070 |} in
  Do (vertical_right (spare_master (1 # 2)%Q 1%Q)) scenario_env = Some [m; s]
  /\ Do (vertical_left (spare_master (1 # 2)%Q 1%Q)) scenario_env = Some [m; s]
  /\ Do (vertical_right (spare_master 0x1p-1%float 1%float)) scenario_env = Some [m; s]
  /\ Do (vertical_left (spare_master 0x1p-1%float 1%float)) scenario_env = Some [m; s]
  /\ masters_left_of_slaves [m] [s]
  /\ ~ masters_right_of_slaves [m] [s].
Proof.
  intros m s. do 4 (split; [vm_compute; reflexivity|]). split.
  - intros a b Ha Hb. apply list_elem_of_singleton in Ha, Hb. subst. vm_compute. discriminate.
  - intros Hr. specialize (Hr m s ltac:(left) ltac:(left)). vm_compute in Hr.
    apply Hr. reflexivity.
Qed.

(** ** The theorems at the scenario *)


Lemma Do_single_partition_full_width_witness :
  let l := two_masters (1 # 2)%Q 1%Q "vertical-left" in
  allowed_positive l /\ vectors_cover l
  /\ exists ps,
       Do l scenario_env = Some ps
       /\ map client ps = [1%positive; 2%positive]
       /\ in_column 5 1910 ps.
Proof.
  intros l.
  assert (Ha : allowed_positive l) by (split; reflexivity).
  assert (Hv : vectors_cover l) by (repeat split; vm_compute; discriminate).
  split; [exact Ha|]. split; [exact Hv|].
  destruct (Do_single_partition_full_width l scenario_env Ha Hv) as [Hm _].
  destruct (Hm eq_refl ltac:(discriminate)) as (ps & Hd & Hc & _ & Hx).
  exists ps. split; [exact Hd|]. split; [exact Hc|].
  apply Hx. left. discriminate.
Defined.

Lemma Do_mirror_above_allowed_witness :
  vectors_cover (vertical_left scenario_manager)
  /\ mirrors_above_allowed scenario_manager scenario_env.
Proof.
  assert (Hv : vectors_cover (vertical_left scenario_manager))
    by (repeat split; vm_compute; discriminate).
  split; [exact Hv|].
  exact (Do_mirror_above_allowed scenario_manager scenario_env Hv).
Defined.


Lemma MoveWindow_locked_discards_one_move_witness :
  let getInfo := fun _ : client.Window => terminal_info in
  client.Locked locked_terminal = true
  /\ client.MoveWindow getInfo 5 5 1142 1070 locked_terminal
     = (tt, client.set_Locked false locked_terminal, [])
  /\ client.Latest (client.set_Locked false locked_terminal) = client.Latest locked_terminal
  /\ forall x' y' w' h',
       exists c' reqs,
         client.MoveWindow getInfo x' y' w' h' (client.set_Locked false locked_terminal)
         = (tt, c', reqs)
         /\ length (filter is_move reqs) = 1%nat.
Proof.
  intros getInfo. split; [reflexivity|].
  exact (MoveWindow_locked_discards_one_move getInfo locked_terminal 5 5 1142 1070 eq_refl).
Defined.

(** ** The passes evaluated *)

(** Why the heights are stated from the products.  Shares of 0.7 and 0.3
    of 1065 pixels: binary64 computes the products 745.5 and 319.5 and the
    heights are 746 and 320, a pixel more than there is, as with the exact
    shares 7/10 and 3/10; the numbers the two binary64 shares stand for are
    a little below 0.7 and 0.3, and in exact arithmetic they give 745 and
    319. *)
Example Do_binary64_rounds_the_product :
  (exists a b,
      Do (uneven_masters 0x1.6666666666666p-1%float 0x1.3333333333333p-2%float 1%float)
        scenario_env = Some [a; b]
      /\ (ph a, ph b) = (746, 320) /\ column_excess scenario_env [a; b] = 1)
  /\ (exists a b,
        Do (uneven_masters (7 # 10)%Q (3 # 10)%Q 1%Q) scenario_env = Some [a; b]
        /\ (ph a, ph b) = (746, 320))
  /\ (exists v7 v3 a b,
        exact 0x1.6666666666666p-1%float = Some v7
        /\ exact 0x1.3333333333333p-2%float = Some v3
        /\ Do (uneven_masters v7 v3 1%Q) scenario_env = Some [a; b]
        /\ (ph a, ph b) = (745, 319)).
Proof.
  split; [|split].
  - eexists _, _. split; [vm_compute; reflexivity|]. split; reflexivity.
  - eexists _, _. split; [vm_compute; reflexivity|]. reflexivity.
  - eexists _, _, _, _. split; [vm_compute; reflexivity|]. split; [vm_compute; reflexivity|].
    split; [vm_compute; reflexivity|]. reflexivity.
Qed.

(** The drift of a column at work.  Three slaves share 1060 pixels: each
    share is 353 and a third, each height 353, and the last slave ends at
    1074, one pixel above the desktop minus the gap.  Two masters share 1065
    pixels: each share is 532 and a half, each height 533, and the last
    master ends at 1076, one pixel below it.  No height makes up for it. *)
Example Do_drift_at_the_last_row :
  (exists a b c d,
      Do scenario_exact scenario_env = Some [a; b; c; d]
      /\ (ph b, ph c, ph d) = (353, 353, 353)
      /\ py d + ph d = 1075 - 1)
  /\ (exists a b,
        Do (two_masters (1 # 2)%Q 1%Q "vertical-left") scenario_env = Some [a; b]
        /\ (ph a, ph b) = (533, 533)
        /\ py b + ph b = 1075 + 1).
Proof.
  split.
  - eexists _, _, _, _. split; [vm_compute; reflexivity|]. split; reflexivity.
  - eexists _, _. split; [vm_compute; reflexivity|]. split; reflexivity.
Qed.

(** C2.  Two masters where one is allowed and no slave, masters on the
    right: the clients outnumber [Masters.Allowed], the areas are swapped,
    and the masters get the full desktop width minus the gaps but keep the
    left edge of the swapped area, 965, so that they end 955 pixels beyond
    the right edge of the desktop.  The slave loop resets its left edge when
    it is alone: two slaves and no master, masters on the right, span the
    desktop from 5 to 1915.  In exact arithmetic and in binary64. *)
Theorem Do_masters_alone_keep_swapped_edge :
  let masters := [ {| client := 1%positive; px := 965; py := 5; pw := 1910; ph := 1070 |};
                   {| client := 2%positive; px := 965; py := 5; pw := 1910; ph := 1070 |} ] in
  let slaves := [ {| client := 1%positive; px := 5; py := 5; pw := 1910; ph := 533 |};
                  {| client := 2%positive; px := 5; py := 543; pw := 1910; ph := 533 |} ] in
  Do (crowded_masters (1 # 2)%Q 1%Q) scenario_env = Some masters
  /\ Do (crowded_masters 0x1p-1%float 1%float) scenario_env = Some masters
  /\ Do (crowded_slaves (1 # 2)%Q 1%Q) scenario_env = Some slaves
  /\ Do (crowded_slaves 0x1p-1%float 1%float) scenario_env = Some slaves
  /\ Forall (fun p => ~ inside_x scenario_env p) masters
  /\ Forall (inside_x scenario_env) slaves.
Proof.
  intros masters slaves. do 4 (split; [vm_compute; reflexivity|]). split.
  - repeat constructor; intros [_ Hr]; vm_compute in Hr; apply Hr; reflexivity.
  - repeat constructor; vm_compute; discriminate.
Qed.

(** Slaves beyond [Slaves.Allowed] start a new row at the top of the same
    column: the third slave is placed over the first. *)
Example Do_wrapped_row_overlaps :
  exists a b c,
    Do {| Manager := {| DeskNum := 0;
                        Proportions := {| MasterSlave := [1 # 2; 1 # 2]%Q;
                                          MasterMaster := [1%Q];
                                          SlaveSlave := [1 # 2; 1 # 2]%Q |};
                        Masters := {| Clients := []; Allowed := 1 |};
                        Slaves := {| Clients := [1%positive; 2%positive; 3%positive];
                                     Allowed := 2 |} |};
          Name := "vertical-left" |} scenario_env = Some [a; b; c]
    /\ rectangle c = rectangle a.
Proof. eexists _, _, _. split; [vm_compute; reflexivity|]. reflexivity. Qed.

(** * More of the code *)

(** ** When a pass returns, and for whom *)

Section do_more.
Context {F : Type} `{Float64 F}.

Lemma column_loop_reads dy dh gap x w amax size (ps : list F) i y cs r (k : nat) :
  column_loop dy dh gap x w amax size ps i y cs = Some r ->
  (k < length cs)%nat ->
  is_Some (index ps (Z.rem (i + Z.of_nat k) size)).
Proof.
  revert i y r k. induction cs as [|c cs IH]; intros i y r k Hr Hk; [cbn in Hk; lia|].
  cbn [column_loop] in Hr.
  destruct (index ps (Z.rem i size)) as [p|] eqn:Hp; [|discriminate].
  cbn [mbind option_bind] in Hr.
  destruct (column_loop dy dh gap x w amax size ps (i + 1) _ cs) as [r'|] eqn:Hr';
    [|discriminate].
  destruct k as [|k].
  - rewrite Z.add_0_r, Hp. eauto.
  - replace (i + Z.of_nat (S k)) with (i + 1 + Z.of_nat k) by lia.
    eapply IH; [exact Hr'|]. cbn in Hk. lia.
Qed.

Lemma column_loop_covered dy dh gap x w amax size (ps : list F) y cs r :
  0 < size -> size <= len cs ->
  column_loop dy dh gap x w amax size ps 0 y cs = Some r ->
  size <= len ps.
Proof.
  intros Hs Hl Hr.
  destruct (column_loop_reads _ _ _ _ _ _ _ _ _ _ _ _ (Z.to_nat (size - 1)) Hr) as [p Hp].
  { unfold len in Hl. lia. }
  rewrite Z.add_0_l, Z2Nat.id, Z.rem_small in Hp by lia.
  apply index_Some_lookup in Hp as [_ Hp]. apply lookup_lt_Some in Hp.
  unfold len. lia.
Qed.

(** [Do] returns exactly when the vectors cover what it indexes:
    [MasterSlave] has an entry, which is read before any client is looked
    at, and [MasterMaster] and [SlaveSlave] have an entry for every visible
    row.  Otherwise an index is out of range and the call panics. *)
Theorem Do_returns_iff_vectors_cover (l : VerticalLayout F) env :
  is_Some (Do l env) <-> vectors_cover l.
Proof.
  split.
  - intros [ps Hd]. rewrite Do_columns in Hd.
    destruct (index (MasterSlave (Proportions (Manager l))) 0) as [p0|] eqn:Hp0;
      [|discriminate].
    cbn [mbind option_bind] in Hd.
    destruct (master_column l env p0) as [ms|] eqn:Hm; [|discriminate].
    cbn [mbind option_bind] in Hd.
    destruct (slave_column l env p0) as [ss|] eqn:Hs; [|discriminate].
    split; [|split].
    + apply index_Some_lookup in Hp0 as [_ Hp0]. apply lookup_lt_Some in Hp0.
      unfold len. cbn in Hp0. lia.
    + unfold master_column in Hm. destruct (Z.ltb_spec 0 (msize l)) as [Hpos|Hpos].
      * eapply column_loop_covered; [exact Hpos| |exact Hm]. unfold msize. lia.
      * unfold len. lia.
    + unfold slave_column in Hs. destruct (Z.ltb_spec 0 (ssize l)) as [Hpos|Hpos].
      * eapply column_loop_covered; [exact Hpos| |exact Hs]. unfold ssize. lia.
      * unfold len. lia.
  - intros Hv. destruct (Do_returns l env Hv) as (p0 & ms & ss & _ & _ & _ & Hd).
    rewrite Hd. eauto.
Qed.

Lemma master_column_clients (l : VerticalLayout F) env p0 ms :
  master_column l env p0 = Some ms ->
  map client ms = laid_out_masters l.
Proof.
  unfold master_column, laid_out_masters. destruct (0 <? msize l).
  - intros Hm. apply column_loop_shape in Hm as [Hc _]. exact Hc.
  - intros [= <-]. reflexivity.
Qed.

Lemma slave_column_clients (l : VerticalLayout F) env p0 ss :
  slave_column l env p0 = Some ss ->
  map client ss = laid_out_slaves l.
Proof.
  unfold slave_column, laid_out_slaves. destruct (0 <? ssize l).
  - intros Hm. apply column_loop_shape in Hm as [Hc _]. exact Hc.
  - intros [= <-]. reflexivity.
Qed.

(** A pass that returns sends one request per client of every partition it
    lays out, the masters first, each partition in the order of its slice.
    A partition whose visible size is not positive is skipped as a whole;
    with both [Allowed] positive no client is skipped. *)
Theorem Do_requests_follow_clients (l : VerticalLayout F) env :
  vectors_cover l ->
  exists ps,
    Do l env = Some ps
    /\ map client ps = laid_out l
    /\ (allowed_positive l -> map client ps = AllClients (Manager l)).
Proof.
  intros Hv. destruct (Do_returns l env Hv) as (p0 & ms & ss & _ & Hm & Hs & Hd).
  exists (ms ++ ss). split; [exact Hd|].
  apply master_column_clients in Hm. apply slave_column_clients in Hs.
  assert (Hl : map client (ms ++ ss) = laid_out l).
  { rewrite map_app, Hm, Hs. reflexivity. }
  split; [exact Hl|]. intros [Hma Hsa]. rewrite Hl.
  unfold laid_out, laid_out_masters, laid_out_slaves, AllClients. f_equal.
  - destruct (Z.ltb_spec 0 (msize l)) as [|Hz]; [reflexivity|].
    symmetry. apply len_zero. unfold msize, len in *. lia.
  - destruct (Z.ltb_spec 0 (ssize l)) as [|Hz]; [reflexivity|].
    symmetry. apply len_zero. unfold ssize, len in *. lia.
Qed.

(** Without clients a pass sends no request, provided [MasterSlave] has an
    entry; with an empty [MasterSlave] it panics all the same, on the read
    of [MasterSlave[0]]. *)
Theorem Do_no_clients (l : VerticalLayout F) env :
  Clients (Masters (Manager l)) = [] -> Clients (Slaves (Manager l)) = [] ->
  Do l env = (if decide (MasterSlave (Proportions (Manager l)) = []) then None else Some []).
Proof.
  intros Hm Hs. rewrite Do_columns. unfold master_column, slave_column, msize, ssize.
  rewrite Hm, Hs.
  destruct (MasterSlave (Proportions (Manager l))) as [|p0 ms]; [reflexivity|].
  rewrite decide_False by discriminate.
  change (index (p0 :: ms) 0) with (Some p0). cbn [mbind option_bind].
  change (len (@nil ClientPtr)) with 0.
  destruct (Z.ltb_spec 0 (Z.min 0 (Allowed (Masters (Manager l))))); [lia|].
  destruct (Z.ltb_spec 0 (Z.min 0 (Allowed (Slaves (Manager l))))); [lia|].
  reflexivity.
Qed.

End do_more.

(** ** Rows beyond Allowed *)

Section wrap.
Context {F : Type} `{Float64 F}.

(** How a column is built, row by row. *)
Lemma column_loop_step dy dh gap x w amax size (ps : list F) i y cs col :
  column_loop dy dh gap x w amax size ps i y cs = Some col ->
  (forall p, col !! 0%nat = Some p ->
     py p = (if Z.rem i amax =? 0 then dy + gap else y))
  /\ (forall (k : nat) p, col !! k = Some p ->
        px p = x /\ pw p = w
        /\ exists q, index ps (Z.rem (i + Z.of_nat k) size) = Some q
                     /\ ph p = row_height dh gap size q)
  /\ (forall (k : nat) p q, col !! k = Some p -> col !! S k = Some q ->
        py q = (if Z.rem (i + Z.of_nat k + 1) amax =? 0 then dy + gap
                else py p + ph p + gap)).
Proof.
  revert i y col. induction cs as [|c cs IH]; intros i y col Hc.
  - injection Hc as <-. repeat split; intros; discriminate.
  - cbn [column_loop] in Hc.
    destruct (index ps (Z.rem i size)) as [q0|] eqn:Hq0; [|discriminate].
    cbn [mbind option_bind] in Hc.
    destruct (column_loop dy dh gap x w amax size ps (i + 1) _ cs) as [r|] eqn:Hr;
      [|discriminate].
    cbn in Hc. injection Hc as <-.
    destruct (IH _ _ _ Hr) as (H0 & Hk & Hs).
    split; [|split].
    + intros p [= <-]. reflexivity.
    + intros [|k] p Hp.
      * injection Hp as <-. cbn. rewrite Z.add_0_r. eauto.
      * cbn in Hp. replace (i + Z.of_nat (S k)) with (i + 1 + Z.of_nat k) by lia.
        apply Hk. exact Hp.
    + intros [|k] p q Hp Hq.
      * injection Hp as <-. cbn in Hq. rewrite (H0 _ Hq). cbn [py ph].
        rewrite Z.add_0_r. reflexivity.
      * cbn in Hp, Hq. rewrite (Hs _ _ _ Hp Hq).
        replace (i + 1 + Z.of_nat k + 1) with (i + Z.of_nat (S k) + 1) by lia.
        reflexivity.
Qed.

Lemma mod_pred_eq (a b m : Z) :
  0 < m -> (a + 1) mod m = (b + 1) mod m -> a mod m = b mod m.
Proof.
  intros Hm E.
  replace a with ((a + 1) + (-1)) by lia. replace b with ((b + 1) + (-1)) by lia.
  rewrite (Z.add_mod (a + 1)), (Z.add_mod (b + 1)) by lia. rewrite E. reflexivity.
Qed.

Lemma column_loop_wraps dy dh gap x w amax (ps : list F) y cs col :
  0 < Z.min (len cs) amax ->
  column_loop dy dh gap x w amax (Z.min (len cs) amax) ps 0 y cs = Some col ->
  wraps_every amax col.
Proof.
  intros Hsz Hc. destruct (column_loop_step _ _ _ _ _ _ _ _ _ _ _ _ Hc) as (H0 & Hk & Hs).
  apply column_loop_shape in Hc as [Hcl _].
  assert (Hlen : length col = length cs) by (rewrite <- Hcl, length_map; reflexivity).
  assert (Ha : 0 < amax) by lia.
  destruct (Z.le_gt_cases (len cs) amax) as [Hle|Hgt].
  { (* no row wraps: equal indices *)
    intros a b pa pb Hpa Hpb E.
    pose proof (lookup_lt_Some _ _ _ Hpa). pose proof (lookup_lt_Some _ _ _ Hpb).
    unfold len in Hle.
    rewrite !Z.mod_small in E by lia.
    assert (a = b) as -> by lia. rewrite Hpa in Hpb. injection Hpb as <-. reflexivity. }
  rewrite Z.min_r in Hk by lia.
  intros a. induction a as [|a IHa]; intros b pa pb Hpa Hpb E.
  - assert (Htop : forall (n : nat) p, col !! n = Some p -> Z.of_nat n mod amax = 0 ->
                     py p = dy + gap).
    { intros [|n] p Hp Hz.
      - rewrite (H0 _ Hp). rewrite Z.rem_0_l by lia. reflexivity.
      - destruct (lookup_lt_is_Some_2 col n) as [p' Hp'].
        { apply lookup_lt_Some in Hp. lia. }
        rewrite (Hs _ _ _ Hp' Hp). rewrite Z.add_0_l.
        rewrite Z.rem_mod_nonneg by lia.
        replace (Z.of_nat n + 1) with (Z.of_nat (S n)) by lia. rewrite Hz. reflexivity. }
    change (Z.of_nat 0) with 0 in E. rewrite Z.mod_0_l in E by lia.
    destruct (Hk _ _ Hpa) as (Hxa & Hwa & qa & Hqa & Hha).
    destruct (Hk _ _ Hpb) as (Hxb & Hwb & qb & Hqb & Hhb).
    rewrite !Z.add_0_l, !Z.rem_mod_nonneg in Hqa, Hqb by lia.
    change (Z.of_nat 0) with 0 in Hqa. rewrite Z.mod_0_l in Hqa by lia.
    rewrite <- E, Hqa in Hqb. injection Hqb as <-.
    unfold rectangle. rewrite Hxa, Hxb, Hwa, Hwb, Hha, Hhb.
    rewrite (Htop _ _ Hpa), (Htop _ _ Hpb); [reflexivity|symmetry; exact E|reflexivity].
  - destruct (Hk _ _ Hpa) as (Hxa & Hwa & qa & Hqa & Hha).
    destruct (Hk _ _ Hpb) as (Hxb & Hwb & qb & Hqb & Hhb).
    rewrite !Z.add_0_l, !Z.rem_mod_nonneg in Hqa, Hqb by lia.
    rewrite <- E, Hqa in Hqb. injection Hqb as <-.
    assert (Hy : py pa = py pb); [|unfold rectangle; congruence].
    destruct (lookup_lt_is_Some_2 col a) as [pa' Hpa'].
    { apply lookup_lt_Some in Hpa. lia. }
    rewrite (Hs _ _ _ Hpa' Hpa). rewrite Z.add_0_l, Z.rem_mod_nonneg by lia.
    destruct b as [|b].
    + (* b is the first row: a + 1 is a multiple of amax *)
      change (Z.of_nat 0) with 0 in E. rewrite Z.mod_0_l in E by lia.
      replace (Z.of_nat a + 1) with (Z.of_nat (S a)) by lia. rewrite E.
      rewrite (H0 _ Hpb), Z.rem_0_l by lia. reflexivity.
    + destruct (lookup_lt_is_Some_2 col b) as [pb' Hpb'].
      { apply lookup_lt_Some in Hpb. lia. }
      rewrite (Hs _ _ _ Hpb' Hpb). rewrite Z.add_0_l, Z.rem_mod_nonneg by lia.
      replace (Z.of_nat a + 1) with (Z.of_nat (S a)) by lia.
      replace (Z.of_nat b + 1) with (Z.of_nat (S b)) by lia.
      rewrite <- E.
      destruct (Z.of_nat (S a) mod amax =? 0); [reflexivity|].
      assert (E' : Z.of_nat a mod amax = Z.of_nat b mod amax).
      { apply mod_pred_eq; [lia|]. 
        replace (Z.of_nat a + 1) with (Z.of_nat (S a)) by lia.
        replace (Z.of_nat b + 1) with (Z.of_nat (S b)) by lia. exact E. }
      pose proof (IHa b pa' pb' Hpa' Hpb' E') as Hrect.
      unfold rectangle in Hrect. injection Hrect as _ Hy' _ Hh'. lia.
Qed.

(** Rows beyond [Allowed] wrap: in either column the client at position
    [k + Allowed] is given exactly the rectangle of the client at position
    [k], and so is every client whose position is equal to [k] modulo
    [Allowed]. *)
Theorem Do_rows_wrap (l : VerticalLayout F) env :
  vectors_cover l ->
  exists ms ss,
    Do l env = Some (ms ++ ss)
    /\ map client ms = laid_out_masters l
    /\ map client ss = laid_out_slaves l
    /\ wraps_every (Allowed (Masters (Manager l))) ms
    /\ wraps_every (Allowed (Slaves (Manager l))) ss.
Proof.
  intros Hv. destruct (Do_returns l env Hv) as (p0 & ms & ss & _ & Hm & Hs & Hd).
  exists ms, ss. split; [exact Hd|].
  split; [exact (master_column_clients l env p0 ms Hm)|].
  split; [exact (slave_column_clients l env p0 ss Hs)|].
  split.
  - unfold master_column in Hm. destruct (Z.ltb_spec 0 (msize l)) as [Hp|Hp].
    + eapply column_loop_wraps; [exact Hp|exact Hm].
    + injection Hm as <-. intros a b pa pb Hpa. discriminate.
  - unfold slave_column in Hs. destruct (Z.ltb_spec 0 (ssize l)) as [Hp|Hp].
    + eapply column_loop_wraps; [exact Hp|exact Hs].
    + injection Hs as <-. intros a b pa pb Hpa. discriminate.
Qed.

End wrap.

(** ** The width of the columns *)

Section do_widths.
Context {F : Type} `{Float64 F}.

(** With both partitions visible the two columns share the desktop width
    whatever the cut [MasterSlave[0]] rounds to, within the sizes for which
    [int] does not overflow: the left column starts one gap from the left
    edge, the right column ends one gap from the right edge, one gap lies
    between them, and the widths add up to the desktop width minus three
    gaps.  The masters are the left column unless the areas are swapped. *)
Theorem Do_columns_share_width (l : VerticalLayout F) env :
  vectors_cover l -> 0 < msize l -> 0 < ssize l -> int_sized l env ->
  exists ms ss cut xm wm xs ws,
    Do l env = Some (ms ++ ss)
    /\ master_slave_cut (Manager l) env = Some cut
    /\ map client ms = Clients (Masters (Manager l))
    /\ map client ss = Clients (Slaves (Manager l))
    /\ in_column xm wm ms /\ in_column xs ws ss
    /\ wm + ws = desktop_width env - 3 * WindowGapSize env
    /\ (if swaps l
        then xs = desktop_x env + WindowGapSize env
             /\ ws = cut - WindowGapSize env
             /\ xs + ws + WindowGapSize env = xm
             /\ xm + wm = desktop_x env + desktop_width env - WindowGapSize env
        else xm = desktop_x env + WindowGapSize env
             /\ wm = cut - 2 * WindowGapSize env
             /\ xm + wm + WindowGapSize env = xs
             /\ xs + ws = desktop_x env + desktop_width env - WindowGapSize env).
Proof.
  intros Hv Hm Hs _.
  destruct (Do_returns l env Hv) as (p0 & ms & ss & Hp0 & Hmc & Hsc & Hd).
  destruct (master_column_shape l env p0 ms Hm Hmc) as [Hcm Hxm].
  destruct (slave_column_shape l env p0 ss Hs Hsc) as [Hcs Hxs].
  destruct (Z.eqb_spec (msize l) 0); [lia|]. destruct (Z.eqb_spec (ssize l) 0); [lia|].
  eexists ms, ss, (cut_of env p0), _, _, _, _.
  split; [exact Hd|].
  split; [unfold master_slave_cut; rewrite Hp0; reflexivity|].
  split; [exact Hcm|]. split; [exact Hcs|].
  split; [exact Hxm|]. split; [exact Hxs|].
  destruct (swaps l); repeat split; lia.
Qed.

End do_widths.

Section update_more.
Context {F : Type} `{Float64 F}.
Variable SetProportions : list F -> F -> Z -> Z -> list F.

(** A resize that moved the edge between the partitions sets one entry of
    [MasterSlave] against the other: entry 0 for a master of vertical-left
    and for a slave of any other layout, entry 1 otherwise.  The value is
    the client's outer width plus the gaps of its column, two for a master
    and one for a slave, over the desktop width.  Without such a move
    [MasterSlave] is left alone. *)
Theorem UpdateProportions_master_slave_entry (l : VerticalLayout F) env c d :
  partition_allowed l c <> 0 ->
  exists l' d',
    UpdateProportions SetProportions l env c d = Some (l', d')
    /\ MasterSlave (Proportions (Manager l')) =
         (if cross_boundary_moved l c d
          then SetProportions (MasterSlave (Proportions (Manager l)))
                 (width_share l env c) (master_slave_entry l c) (1 - master_slave_entry l c)
          else MasterSlave (Proportions (Manager l))).
Proof.
  unfold partition_allowed, UpdateProportions, cross_boundary_moved, master_slave_entry,
    width_share, client_width, desktop_width.
  destruct (DesktopDimensions env) as [[[dx dy] dw] dh].
  destruct (OuterGeometry env c) as [[[cx cy] cw] ch]. cbn [fst snd].
  intros Ha.
  destruct (IsMaster (Manager l) c); apply Z.eqb_neq in Ha;
    destruct (String.eqb (Name l) "vertical-left"); cbn [Top Right Bottom Left fst snd];
    rewrite Ha; destruct d as [t r b lf]; cbn [Top Right Bottom Left];
    destruct t, r, b, lf; eexists _, _; (split; [reflexivity|]); reflexivity.
Qed.

(** [UpdateProportions] touches the proportions only: the clients, both
    [Allowed], the desktop number and the name are as before.  It does
    write to the [Directions] of its caller: in vertical-left [Left] and
    [Right] come back exchanged, so a second call on the same [Directions]
    sees them exchanged and hands the original ones back. *)
Theorem UpdateProportions_frame (l : VerticalLayout F) env c d l' d' :
  UpdateProportions SetProportions l env c d = Some (l', d') ->
  Masters (Manager l') = Masters (Manager l)
  /\ Slaves (Manager l') = Slaves (Manager l)
  /\ DeskNum (Manager l') = DeskNum (Manager l)
  /\ Name l' = Name l
  /\ d' = (if String.eqb (Name l) "vertical-left" then swap_left_right d else d)
  /\ (Name l = "vertical-left" ->
      forall env2 c2 l2 d2,
        UpdateProportions SetProportions l' env2 c2 d' = Some (l2, d2) -> d2 = d).
Proof.
  assert (Hgen : forall (l : VerticalLayout F) env c d l' d',
            UpdateProportions SetProportions l env c d = Some (l', d') ->
            Masters (Manager l') = Masters (Manager l)
            /\ Slaves (Manager l') = Slaves (Manager l)
            /\ DeskNum (Manager l') = DeskNum (Manager l)
            /\ Name l' = Name l
            /\ d' = (if String.eqb (Name l) "vertical-left" then swap_left_right d else d)).
  { clear. intros l env c d l' d'. unfold UpdateProportions, swap_left_right.
    destruct (DesktopDimensions env) as [[[dx dy] dw] dh].
    destruct (OuterGeometry env c) as [[[cx cy] cw] ch].
    destruct (IsMaster (Manager l) c);
      [destruct (Allowed (Masters (Manager l)) =? 0)
      |destruct (Allowed (Slaves (Manager l)) =? 0)];
      destruct (String.eqb (Name l) "vertical-left"); cbn [Top Right Bottom Left fst snd];
      try discriminate;
      destruct d as [t r b lf]; cbn [Top Right Bottom Left];
      destruct t, r, b, lf; intros [= <- <-]; repeat split; reflexivity. }
  intros Hu. destruct (Hgen _ _ _ _ _ _ Hu) as (Hm & Hs & Hn & Hname & Hd).
  repeat (split; [assumption|]).
  intros Hleft env2 c2 l2 d2 Hu2.
  destruct (Hgen _ _ _ _ _ _ Hu2) as (_ & _ & _ & _ & Hd2).
  rewrite Hname, Hleft in Hd2. rewrite Hleft in Hd. cbn in Hd, Hd2.
  subst d' d2. destruct d; reflexivity.
Qed.

End update_more.

(** ** From a pass to a resize and back *)

Lemma Index_bounds cs c : Index cs c = -1 \/ 0 <= Index cs c.
Proof.
  induction cs as [|c' cs IH]; cbn [Index]; [left; reflexivity|].
  destruct (Pos.eqb c' c); [right; lia|].
  destruct (Z.ltb_spec (Index cs c) 0); [left; reflexivity|right; lia].
Qed.

Lemma Index_absent cs c : c ∉ cs -> Index cs c = -1.
Proof.
  induction cs as [|c' cs IH]; intros Hn; cbn [Index]; [reflexivity|].
  apply not_elem_of_cons in Hn as [Hne Hn].
  destruct (Pos.eqb_spec c' c); [congruence|].
  rewrite (IH Hn). reflexivity.
Qed.

Lemma Index_lookup cs c (k : nat) :
  NoDup cs -> cs !! k = Some c -> Index cs c = Z.of_nat k.
Proof.
  revert k. induction cs as [|c' cs IH]; intros k Hnd Hk; [discriminate|].
  apply NoDup_cons in Hnd as [Hni Hnd]. cbn [Index]. destruct k as [|k].
  - injection Hk as ->. rewrite Pos.eqb_refl. reflexivity.
  - cbn in Hk. destruct (Pos.eqb_spec c' c) as [->|Hne].
    + exfalso. apply Hni. eapply list_elem_of_lookup_2. exact Hk.
    + rewrite (IH k Hnd Hk). destruct (Z.ltb_spec (Z.of_nat k) 0); lia.
Qed.

Lemma Index_present cs c : c ∈ cs -> 0 <= Index cs c.
Proof.
  induction cs as [|c' cs IH]; intros Hin; [inversion Hin|].
  cbn [Index]. destruct (Pos.eqb_spec c' c) as [|Hne]; [lia|].
  apply elem_of_cons in Hin as [->|Hin]; [congruence|].
  specialize (IH Hin). destruct (Z.ltb_spec (Index cs c) 0); lia.
Qed.

Lemma IsMaster_elem {F} (mg : store.Manager F) c :
  IsMaster mg c = true <-> c ∈ Clients (Masters mg).
Proof.
  unfold IsMaster. rewrite Z.leb_le. split.
  - intros Hi. destruct (decide (c ∈ Clients (Masters mg))) as [|Hn]; [assumption|].
    rewrite (Index_absent _ _ Hn) in Hi. lia.
  - apply Index_present.
Qed.

Lemma swaps_right_name {F} (l : VerticalLayout F) :
  swaps l = true -> String.eqb (Name l) "vertical-left" = false.
Proof.
  unfold swaps. intros Hs. apply andb_prop in Hs as [Hn _].
  apply String.eqb_eq in Hn. rewrite Hn. reflexivity.
Qed.

Lemma left_name_no_swap {F} (l : VerticalLayout F) :
  Name l = "vertical-left" -> swaps l = false.
Proof. unfold swaps. intros ->. reflexivity. Qed.

Lemma rem_min_len (k : nat) (n amax : Z) :
  Z.of_nat k < n -> 0 < Z.min n amax ->
  Z.rem (Z.of_nat k) (Z.min n amax) = Z.rem (Z.of_nat k) amax.
Proof.
  intros Hk Hm. destruct (Z.le_gt_cases n amax).
  - rewrite Z.min_l by lia. rewrite !Z.rem_small by lia. reflexivity.
  - rewrite Z.min_r by lia. reflexivity.
Qed.

Section read_back.
Context {F : Type} `{Float64 F}.

(** What [Do] writes, [UpdateProportions] reads back.  When a client has
    the width a pass gave it, the value a resize computes for it,
    [width_share], is the width [Do] gave its column, gaps included, over
    the desktop width: the cut for the column of entry 0 of [MasterSlave]
    and the rest for the column of entry 1, the cut being
    [round (dw * MasterSlave[0])].  This needs both partitions visible, no
    client in both, a layout that agrees on the side of the masters, and
    sizes for which [int] does not overflow. *)
Theorem Do_resize_keeps_width_share (l : VerticalLayout F) env :
  vectors_cover l -> 0 < msize l -> 0 < ssize l ->
  NoDup (AllClients (Manager l)) ->
  orientation_agrees l -> int_sized l env ->
  exists ps cut,
    Do l env = Some ps
    /\ master_slave_cut (Manager l) env = Some cut
    /\ forall p,
         p ∈ ps -> client_width env (client p) = pw p ->
         width_share l env (client p)
         = fdiv (float64 (side_width (desktop_width env) cut
                            (master_slave_entry l (client p))))
                (float64 (desktop_width env)).
Proof.
  intros Hv Hm Hs Hnd Hor _.
  destruct (Do_returns l env Hv) as (p0 & ms & ss & Hp0 & Hmc & Hsc & Hd).
  destruct (master_column_shape l env p0 ms Hm Hmc) as [Hcm Hxm].
  destruct (slave_column_shape l env p0 ss Hs Hsc) as [Hcs Hxs].
  destruct (Z.eqb_spec (msize l) 0); [lia|]. destruct (Z.eqb_spec (ssize l) 0); [lia|].
  exists (ms ++ ss), (cut_of env p0). split; [exact Hd|].
  split; [unfold master_slave_cut; rewrite Hp0; reflexivity|].
  apply NoDup_app in Hnd as (_ & Hdisj & _).
  intros p Hin Hw. apply elem_of_app in Hin as [Hin|Hin].
  - (* a master *)
    assert (Hc : client p ∈ Clients (Masters (Manager l))).
    { rewrite <- Hcm. apply list_elem_of_fmap. eauto. }
    pose proof (proj2 (IsMaster_elem (Manager l) (client p)) Hc) as Him.
    unfold in_column in Hxm. rewrite Forall_forall in Hxm.
    destruct (Hxm p Hin) as [_ Hpw].
    unfold width_share, master_slave_entry, side_width. rewrite Him, Hw, Hpw.
    destruct Hor as [Hl|Hsw].
    + rewrite (left_name_no_swap l Hl). rewrite Hl.
      change (String.eqb "vertical-left" "vertical-left") with true. cbn iota.
      cbn [Z.eqb]. do 2 f_equal. lia.
    + rewrite Hsw, (swaps_right_name l Hsw). cbn [Z.eqb]. do 2 f_equal. lia.
  - (* a slave *)
    assert (Hc : client p ∈ Clients (Slaves (Manager l))).
    { rewrite <- Hcs. apply list_elem_of_fmap. eauto. }
    assert (Him : IsMaster (Manager l) (client p) = false).
    { destruct (IsMaster (Manager l) (client p)) eqn:E; [|reflexivity].
      apply IsMaster_elem in E. exfalso. exact (Hdisj _ E Hc). }
    unfold in_column in Hxs. rewrite Forall_forall in Hxs.
    destruct (Hxs p Hin) as [_ Hpw].
    unfold width_share, master_slave_entry, side_width. rewrite Him, Hw, Hpw.
    destruct Hor as [Hl|Hsw].
    + rewrite (left_name_no_swap l Hl). rewrite Hl.
      change (String.eqb "vertical-left" "vertical-left") with true. cbn iota.
      cbn [Z.eqb]. do 2 f_equal. lia.
    + rewrite Hsw, (swaps_right_name l Hsw). cbn [Z.eqb]. do 2 f_equal. lia.
Qed.

Lemma column_row_entry dy dh gap x w amax (ps : list F) y cs col (k : nat) p :
  0 < Z.min (len cs) amax -> NoDup cs ->
  column_loop dy dh gap x w amax (Z.min (len cs) amax) ps 0 y cs = Some col ->
  col !! k = Some p ->
  Index cs (client p) = Z.of_nat k
  /\ exists q,
       index ps (Z.rem (Index cs (client p)) amax) = Some q
       /\ ph p = row_height dh gap (Z.min (len cs) amax) q.
Proof.
  intros Hsz Hnd Hc Hk.
  destruct (column_loop_step _ _ _ _ _ _ _ _ _ _ _ _ Hc) as (_ & Hrow & _).
  destruct (Hrow _ _ Hk) as (_ & _ & q & Hq & Hh).
  apply column_loop_shape in Hc as [Hcl _].
  assert (Hck : cs !! k = Some (client p)).
  { rewrite <- Hcl, list_lookup_fmap, Hk. reflexivity. }
  pose proof (Index_lookup _ _ _ Hnd Hck) as Hi.
  split; [exact Hi|]. exists q. rewrite Hi.
  rewrite Z.add_0_l, rem_min_len in Hq;
    [|apply lookup_lt_Some in Hck; unfold len; lia|exact Hsz].
  split; [exact Hq|exact Hh].
Qed.

(** Likewise for the rows.  When a client has the height a pass gave it,
    the value a resize computes for it, [height_share], is the height
    rounded from the entry of [MasterMaster] or [SlaveSlave] the resize
    would set, over the available height of the partition: the entry [Do]
    read for the client's row is the entry [UpdateProportions] writes. *)
Theorem Do_resize_keeps_height_share (l : VerticalLayout F) env :
  vectors_cover l -> NoDup (AllClients (Manager l)) -> int_sized l env ->
  exists ps,
    Do l env = Some ps
    /\ forall p,
         p ∈ ps -> client_height env (client p) = ph p ->
         exists q,
           index (row_vector l (client p)) (row_entry l (client p)) = Some q
           /\ height_share l env (client p)
              = fdiv (float64 (row_height (desktop_height env) (WindowGapSize env)
                                 (partition_size l (client p)) q))
                     (float64 (available_height env (partition_size l (client p)))).
Proof.
  intros Hv Hnd _.
  destruct (Do_returns l env Hv) as (p0 & ms & ss & Hp0 & Hmc & Hsc & Hd).
  exists (ms ++ ss). split; [exact Hd|].
  apply NoDup_app in Hnd as (Hndm & Hdisj & Hnds).
  intros p Hin Hh. apply elem_of_app in Hin as [Hin|Hin].
  - unfold master_column in Hmc. destruct (Z.ltb_spec 0 (msize l)) as [Hpos|Hpos];
      [|injection Hmc as <-; inversion Hin].
    assert (Hc : client p ∈ Clients (Masters (Manager l))).
    { apply column_loop_shape in Hmc as [Hcm _]. rewrite <- Hcm.
      apply list_elem_of_fmap. eauto. }
    pose proof (proj2 (IsMaster_elem (Manager l) (client p)) Hc) as Him.
    unfold row_vector, row_entry, height_share, partition_size in *. rewrite Him in *.
    apply list_elem_of_lookup in Hin as [k Hk].
    rewrite Hh.
    destruct (column_row_entry _ _ _ _ _ _ _ _ _ _ _ _ Hpos Hndm Hmc Hk)
      as (_ & q & Hq & Hb).
    exists q. split; [exact Hq|]. rewrite Hb. reflexivity.
  - unfold slave_column in Hsc. destruct (Z.ltb_spec 0 (ssize l)) as [Hpos|Hpos];
      [|injection Hsc as <-; inversion Hin].
    assert (Hc : client p ∈ Clients (Slaves (Manager l))).
    { apply column_loop_shape in Hsc as [Hcs _]. rewrite <- Hcs.
      apply list_elem_of_fmap. eauto. }
    assert (Him : IsMaster (Manager l) (client p) = false).
    { destruct (IsMaster (Manager l) (client p)) eqn:E; [|reflexivity].
      apply IsMaster_elem in E. exfalso. exact (Hdisj _ E Hc). }
    unfold row_vector, row_entry, height_share, partition_size in *. rewrite Him in *.
    apply list_elem_of_lookup in Hin as [k Hk].
    rewrite Hh.
    destruct (column_row_entry _ _ _ _ _ _ _ _ _ _ _ _ Hpos Hnds Hsc Hk)
      as (_ & q & Hq & Hb).
    exists q. split; [exact Hq|]. rewrite Hb. reflexivity.
Qed.

End read_back.

Import client_rules.

(** ** The requests and the state of a move *)

Lemma length_zero_empty (s : string) : (String.length s =? 0)%nat = true <-> s = EmptyString.
Proof. destruct s; cbn; split; intros; congruence. Qed.

(** The requests of a move of an unlocked client, in order: the two
    maximized states are removed when the window is maximized, the
    fullscreen state when it is fullscreen, and last comes the one move.
    With a positive width and height it is a move-resize to the rectangle
    corrected by the frame extents in force; otherwise the window is moved
    only and no size is sent. *)
Theorem MoveWindow_unlocked_requests getInfo c x y w h :
  client.Locked c = false ->
  exists c',
    client.MoveWindow getInfo x y w h c
    = (tt, c',
       unmaximize_requests c ++ unfullscreen_requests c
       ++ [if (0 <? w) && (0 <? h)
           then client.MoveresizeWindow (client.Win c)
                  (x + (position_offset c).1) (y + (position_offset c).2)
                  (w - (size_offset c).1) (h - (size_offset c).2)
           else client.MoveWindowReq (client.Win c)
                  (x + (position_offset c).1) (y + (position_offset c).2)]).
Proof.
  intros HL. unfold client.MoveWindow, client.bind, client.this,
    unmaximize_requests, unfullscreen_requests, position_offset, size_offset.
  cbn -[client.UnMaximize client.UnFullscreen client.Update]. rewrite HL.
  unfold client.UnMaximize, client.UnFullscreen, client.Update, client.bind,
    client.this, client.ret, client.send, client.put.
  destruct (client.IsMaximized (client.Latest c)) eqn:E1,
    (client.IsFullscreen (client.Latest c)) eqn:E2,
    (client.AdjPos (client.Dims (client.Latest c))) eqn:E3,
    (client.AdjSize (client.Dims (client.Latest c))) eqn:E4,
    ((0 <? w) && (0 <? h)) eqn:E5,
    (String.length (client.Class (getInfo (client.Win c))) =? 0)%nat eqn:E6;
    repeat (cbn; rewrite ?E1, ?E2, ?E3, ?E4, ?E5, ?E6); eexists; reflexivity.
Qed.

(** [MoveWindow] keeps the window, the original and the cached information
    of the client and leaves it unlocked.  [Latest] is either as before or,
    for a client that was not locked, what the server reports now; a report
    without class is not stored, so a client whose latest information has a
    class keeps one. *)
Theorem MoveWindow_keeps_client getInfo c x y w h :
  valid_class (client.Latest c) ->
  forall c' reqs,
    client.MoveWindow getInfo x y w h c = (tt, c', reqs) ->
    client.Win c' = client.Win c
    /\ client.Original c' = client.Original c
    /\ client.Cached c' = client.Cached c
    /\ client.Locked c' = false
    /\ valid_class (client.Latest c')
    /\ (client.Latest c' = client.Latest c
        \/ (client.Locked c = false /\ client.Latest c' = getInfo (client.Win c))).
Proof.
  intros Hv c' reqs. unfold client.MoveWindow, client.bind, client.this.
  cbn -[client.UnMaximize client.UnFullscreen client.Update].
  destruct (client.Locked c) eqn:HL.
  - cbn. intros [= <- <-]. cbn. auto 10.
  - unfold client.UnMaximize, client.UnFullscreen, client.Update, client.bind,
      client.this, client.ret, client.send, client.put.
    destruct (String.length (client.Class (getInfo (client.Win c))) =? 0)%nat eqn:Hc;
      destruct (client.IsMaximized (client.Latest c)) eqn:E1,
        (client.IsFullscreen (client.Latest c)) eqn:E2,
        (client.AdjPos (client.Dims (client.Latest c))) eqn:E3,
        (client.AdjSize (client.Dims (client.Latest c))) eqn:E4,
        ((0 <? w) && (0 <? h)) eqn:E5;
      repeat (cbn; rewrite ?E1, ?E2, ?E3, ?E4, ?E5, ?Hc); intros [= <- <-]; cbn;
      rewrite ?HL; repeat split; auto;
      unfold valid_class; intros E; apply length_zero_empty in E; congruence.
Qed.

(** A minimized window is special, whatever its class and types. *)
Theorem IsMinimized_IsSpecial buildName info :
  IsMinimized info = true -> IsSpecial buildName info = true.
Proof.
  unfold IsMinimized, IsSpecial, client.IsInList. intros Hm.
  destruct (String.eqb (client.Class info) buildName); [reflexivity|].
  destruct (existsb _ (client.Types info)); [reflexivity|].
  apply existsb_exists in Hm as (s & Hin & Hs). apply String.eqb_eq in Hs. subst s.
  apply existsb_exists. exists "_NET_WM_STATE_HIDDEN". split; [exact Hin|reflexivity].
Qed.

(** ** The ignore list *)

Section ignore_list.
Variable Regexp : Type.
Variable MustCompile : string -> option Regexp.
Variable MatchString : Regexp -> string -> bool.
Variable Source : Regexp -> string.
Variable ToLower : string -> string.

Lemma compile_specs_length acc conf r :
  compile_specs Regexp MustCompile ToLower acc conf = Some r ->
  length r = (length acc + length conf)%nat.
Proof.
  revert acc r. induction conf as [|s conf IH]; intros acc r.
  - cbn. intros [= <-]. lia.
  - cbn [compile_specs]. destruct (compile_spec Regexp MustCompile ToLower s) as [spec|];
      [|discriminate].
    cbn [mbind option_bind]. intros Hr. rewrite (IH _ _ Hr), length_app. cbn. lia.
Qed.

(** The ignore list is compiled once.  After the first call that compiles
    a configured list, the package variable holds one expression pair per
    configured entry, no later call changes it, and the answers no longer
    depend on the configuration: a change of [WindowIgnore] is not seen. *)
Theorem IsIgnored_compiles_once WindowIgnore info b specs :
  WindowIgnore <> [] -> client.Class info <> EmptyString ->
  IsIgnored Regexp MustCompile MatchString Source ToLower WindowIgnore [] info
  = Some (b, specs) ->
  length specs = length WindowIgnore
  /\ forall WindowIgnore' info',
       exists b',
         IsIgnored Regexp MustCompile MatchString Source ToLower WindowIgnore' specs info'
         = Some (b', specs)
         /\ IsIgnored Regexp MustCompile MatchString Source ToLower WindowIgnore specs info'
            = Some (b', specs).
Proof.
  intros Hcfg Hcls. unfold IsIgnored at 1.
  destruct (String.length (client.Class info) =? 0)%nat eqn:Hl.
  { apply length_zero_empty in Hl. congruence. }
  unfold getWindowIgnoreList. cbn [length Nat.eqb andb].
  destruct WindowIgnore as [|s conf]; [congruence|].
  change (0 <? length (s :: conf))%nat with true. cbn iota.
  destruct (compile_specs Regexp MustCompile ToLower [] (s :: conf)) as [r|] eqn:Hr;
    [|discriminate].
  cbn [mbind option_bind]. intros [= _ <-].
  pose proof (compile_specs_length _ _ _ Hr) as Hlen. cbn [length Nat.add] in Hlen.
  split; [exact Hlen|].
  intros cfg' info'. unfold IsIgnored, getWindowIgnoreList.
  destruct r as [|spec r]; [discriminate|]. cbn [length Nat.eqb andb].
  destruct (String.length (client.Class info') =? 0)%nat; eexists; split; reflexivity.
Qed.

End ignore_list.

(** ** Passes in a row *)

Lemma MoveResize_locked getInfo p c :
  client.Locked c = true ->
  MoveResize getInfo p c = (tt, client.set_Locked false c, []).
Proof. apply MoveWindow_locked. Qed.

Lemma MoveResize_unlocked getInfo p c :
  client.Locked c = false ->
  MoveResize getInfo p c = (tt, refreshed getInfo c, move_requests c p).
Proof.
  intros HL. unfold MoveResize, client.MoveWindow, client.bind, client.this,
    move_requests, refreshed, unmaximize_requests, unfullscreen_requests,
    position_offset, size_offset.
  cbn -[client.UnMaximize client.UnFullscreen client.Update]. rewrite HL.
  unfold client.UnMaximize, client.UnFullscreen, client.Update, client.bind,
    client.this, client.ret, client.send, client.put.
  destruct (client.IsMaximized (client.Latest c)) eqn:E1,
    (client.IsFullscreen (client.Latest c)) eqn:E2,
    (client.AdjPos (client.Dims (client.Latest c))) eqn:E3,
    (client.AdjSize (client.Dims (client.Latest c))) eqn:E4,
    ((0 <? pw p) && (0 <? ph p)) eqn:E5,
    (String.length (client.Class (getInfo (client.Win c))) =? 0)%nat eqn:E6;
    repeat (cbn; rewrite ?E1, ?E2, ?E3, ?E4, ?E5, ?E6); reflexivity.
Qed.

Lemma MoveResize_moved getInfo p c : (MoveResize getInfo p c).1.2 = moved getInfo c.
Proof.
  unfold moved. destruct (client.Locked c) eqn:HL.
  - rewrite MoveResize_locked by exact HL. reflexivity.
  - rewrite MoveResize_unlocked by exact HL. reflexivity.
Qed.


Lemma refreshed_unlocked getInfo c :
  client.Locked c = false -> client.Locked (refreshed getInfo c) = false.
Proof. unfold refreshed. destruct (_ =? _)%nat; auto. Qed.

Lemma refreshed_idempotent getInfo c :
  refreshed getInfo (refreshed getInfo c) = refreshed getInfo c.
Proof.
  unfold refreshed.
  destruct (String.length (client.Class (getInfo (client.Win c))) =? 0)%nat eqn:E;
    cbn [client.Win client.set_Latest]; rewrite E; reflexivity.
Qed.


Lemma moved_settled getInfo c :
  client.Locked c = false -> settled getInfo (moved getInfo c).
Proof.
  intros HL. unfold moved. rewrite HL. split.
  - apply refreshed_unlocked, HL.
  - apply refreshed_idempotent.
Qed.





Section passes.
Context {F : Type} `{Float64 F}.
Variable getInfo : client.Window -> client.Info.




End passes.


(** The lock at work in the scenario, the master locked: the first pass
    sends no request for the master and moves the three slaves, the second
    moves the master as well, to its rectangle within the frame. *)
Example Do_locked_client_misses_first_pass :
  exists w1 w2 r,
    DoTimes scenario_server 1 scenario_env scenario_world
    = Some ([(scenario_placements, [] :: r)], w1)
    /\ DoTimes scenario_server 2 scenario_env scenario_world
       = Some ([(scenario_placements, [] :: r); (scenario_placements,
                 [client.MoveresizeWindow 77%N 6 25 1140 1049] :: r)], w2)
    /\ Forall (fun reqs => length (filter is_move reqs) = 1%nat) r.
Proof.
  eexists _, _, _. split; [vm_compute; reflexivity|].
  split; [vm_compute; reflexivity|].
  repeat constructor.
Qed.

(** ** The further theorems at their inputs *)

Lemma Do_requests_follow_clients_witness :
  vectors_cover scenario_exact
  /\ exists ps,
       Do scenario_exact scenario_env = Some ps
       /\ map client ps = laid_out scenario_exact
       /\ (allowed_positive scenario_exact ->
           map client ps = AllClients (Manager scenario_exact)).
Proof.
  assert (Hv : vectors_cover scenario_exact) by (repeat split; vm_compute; discriminate).
  split; [exact Hv|].
  exact (Do_requests_follow_clients scenario_exact scenario_env Hv).
Defined.

Lemma Do_no_clients_witness :
  let l := empty_layout [1 # 2; 1 # 2]%Q in
  Clients (Masters (Manager l)) = [] /\ Clients (Slaves (Manager l)) = []
  /\ Do l scenario_env
     = (if decide (MasterSlave (Proportions (Manager l)) = []) then None else Some []).
Proof.
  intros l. split; [reflexivity|]. split; [reflexivity|].
  exact (Do_no_clients l scenario_env eq_refl eq_refl).
Defined.

Lemma Do_rows_wrap_witness :
  vectors_cover wrapped_slaves
  /\ exists ms ss,
       Do wrapped_slaves scenario_env = Some (ms ++ ss)
       /\ map client ms = laid_out_masters wrapped_slaves
       /\ map client ss = laid_out_slaves wrapped_slaves
       /\ wraps_every (Allowed (Masters (Manager wrapped_slaves))) ms
       /\ wraps_every (Allowed (Slaves (Manager wrapped_slaves))) ss.
Proof.
  assert (Hv : vectors_cover wrapped_slaves) by (repeat split; vm_compute; discriminate).
  split; [exact Hv|].
  exact (Do_rows_wrap wrapped_slaves scenario_env Hv).
Defined.

Ltac int_sized_here :=
  unfold int_sized, modest;
  do 6 (split; [vm_compute; discriminate|]);
  split; [repeat constructor; vm_compute; discriminate|];
  split; [repeat constructor; vm_compute; discriminate|];
  intros cut [= <-]; vm_compute; discriminate.

Lemma Do_columns_share_width_witness :
  let l := scenario_binary64 in
  let env := scenario_env in
  vectors_cover l /\ 0 < msize l /\ 0 < ssize l /\ int_sized l env
  /\ exists ms ss cut xm wm xs ws,
       Do l env = Some (ms ++ ss)
       /\ master_slave_cut (Manager l) env = Some cut
       /\ map client ms = Clients (Masters (Manager l))
       /\ map client ss = Clients (Slaves (Manager l))
       /\ in_column xm wm ms /\ in_column xs ws ss
       /\ wm + ws = desktop_width env - 3 * WindowGapSize env
       /\ (if swaps l
           then xs = desktop_x env + WindowGapSize env
                /\ ws = cut - WindowGapSize env
                /\ xs + ws + WindowGapSize env = xm
                /\ xm + wm = desktop_x env + desktop_width env - WindowGapSize env
           else xm = desktop_x env + WindowGapSize env
                /\ wm = cut - 2 * WindowGapSize env
                /\ xm + wm + WindowGapSize env = xs
                /\ xs + ws = desktop_x env + desktop_width env - WindowGapSize env).
Proof.
  intros l env.
  assert (Hv : vectors_cover l) by (repeat split; vm_compute; discriminate).
  assert (Hm : 0 < msize l) by reflexivity.
  assert (Hs : 0 < ssize l) by reflexivity.
  assert (Hi : int_sized l env) by int_sized_here.
  split; [exact Hv|]. split; [exact Hm|]. split; [exact Hs|]. split; [exact Hi|].
  exact (Do_columns_share_width l env Hv Hm Hs Hi).
Defined.

Lemma UpdateProportions_master_slave_entry_witness :
  let l := scenario_exact in
  let d := {| Top := false; Right := true; Bottom := false; Left := false |} in
  partition_allowed l 1%positive <> 0
  /\ exists l' d',
       UpdateProportions (SetProportions (1 # 10)) l resize_env 1%positive d = Some (l', d')
       /\ MasterSlave (Proportions (Manager l')) =
            (if cross_boundary_moved l 1%positive d
             then SetProportions (1 # 10) (MasterSlave (Proportions (Manager l)))
                    (width_share l resize_env 1%positive)
                    (master_slave_entry l 1%positive) (1 - master_slave_entry l 1%positive)
             else MasterSlave (Proportions (Manager l))).
Proof.
  intros l d.
  assert (Ha : partition_allowed l 1%positive <> 0) by (vm_compute; discriminate).
  split; [exact Ha|].
  exact (UpdateProportions_master_slave_entry (SetProportions (1 # 10)) l resize_env
           1%positive d Ha).
Defined.

Lemma UpdateProportions_frame_witness :
  let l := scenario_exact in
  let d := {| Top := false; Right := true; Bottom := false; Left := false |} in
  let l' := with_MasterSlave l
              (SetProportions (1 # 10) (MasterSlave (Proportions (Manager l)))
                 (width_share l resize_env 1%positive) 0 1) in
  let d' := swap_left_right d in
  UpdateProportions (SetProportions (1 # 10)) l resize_env 1%positive d = Some (l', d')
  /\ Masters (Manager l') = Masters (Manager l)
  /\ Slaves (Manager l') = Slaves (Manager l)
  /\ DeskNum (Manager l') = DeskNum (Manager l)
  /\ Name l' = Name l
  /\ d' = (if String.eqb (Name l) "vertical-left" then swap_left_right d else d)
  /\ (Name l = "vertical-left" ->
      forall env2 c2 l2 d2,
        UpdateProportions (SetProportions (1 # 10)) l' env2 c2 d' = Some (l2, d2) -> d2 = d).
Proof.
  intros l d l' d'.
  assert (Hu : UpdateProportions (SetProportions (1 # 10)) l resize_env 1%positive d
               = Some (l', d')) by (vm_compute; reflexivity).
  split; [exact Hu|].
  exact (UpdateProportions_frame (SetProportions (1 # 10)) l resize_env 1%positive d l' d' Hu).
Defined.

Lemma Do_resize_keeps_width_share_witness :
  let l := scenario_binary64 in
  let env := scenario_placed_env in
  vectors_cover l /\ 0 < msize l /\ 0 < ssize l
  /\ NoDup (AllClients (Manager l)) /\ orientation_agrees l /\ int_sized l env
  /\ exists ps cut,
       Do l env = Some ps
       /\ master_slave_cut (Manager l) env = Some cut
       /\ forall p,
            p ∈ ps -> client_width env (client p) = pw p ->
            width_share l env (client p)
            = fdiv (float64 (side_width (desktop_width env) cut
                               (master_slave_entry l (client p))))
                   (float64 (desktop_width env)).
Proof.
  intros l env.
  assert (Hv : vectors_cover l) by (repeat split; vm_compute; discriminate).
  assert (Hm : 0 < msize l) by reflexivity.
  assert (Hs : 0 < ssize l) by reflexivity.
  assert (Hn : NoDup (AllClients (Manager l)))
    by (refine (bool_decide_unpack _ _); vm_compute; exact I).
  assert (Ho : orientation_agrees l) by (left; reflexivity).
  assert (Hi : int_sized l env) by int_sized_here.
  repeat (split; [assumption|]).
  exact (Do_resize_keeps_width_share l env Hv Hm Hs Hn Ho Hi).
Defined.

Lemma Do_resize_keeps_height_share_witness :
  let l := scenario_binary64 in
  let env := scenario_placed_env in
  vectors_cover l /\ NoDup (AllClients (Manager l)) /\ int_sized l env
  /\ exists ps,
       Do l env = Some ps
       /\ forall p,
            p ∈ ps -> client_height env (client p) = ph p ->
            exists q,
              index (row_vector l (client p)) (row_entry l (client p)) = Some q
              /\ height_share l env (client p)
                 = fdiv (float64 (row_height (desktop_height env) (WindowGapSize env)
                                    (partition_size l (client p)) q))
                        (float64 (available_height env (partition_size l (client p)))).
Proof.
  intros l env.
  assert (Hv : vectors_cover l) by (repeat split; vm_compute; discriminate).
  assert (Hn : NoDup (AllClients (Manager l)))
    by (refine (bool_decide_unpack _ _); vm_compute; exact I).
  assert (Hi : int_sized l env) by int_sized_here.
  split; [exact Hv|]. split; [exact Hn|]. split; [exact Hi|].
  exact (Do_resize_keeps_height_share l env Hv Hn Hi).
Defined.

(** The scenario read back in binary64: the master at its width of the pass
    feeds back 1152/1920 = 0.6 and the first slave a third of the height up
    to the pixel, 353/1060. *)
Example Do_resize_scenario_binary64 :
  width_share scenario_binary64 scenario_placed_env 1%positive = 0x1.3333333333333p-1%float
  /\ width_share scenario_binary64 scenario_placed_env 2%positive = 0x1.999999999999ap-2%float
  /\ height_share scenario_binary64 scenario_placed_env 2%positive
     = PrimFloat.div 353 1060.
Proof. repeat split; vm_compute; reflexivity. Qed.

Lemma MoveWindow_unlocked_requests_witness :
  let getInfo := fun _ : client.Window => terminal_info in
  let c := unlocked_terminal in
  client.Locked c = false
  /\ exists c',
       client.MoveWindow getInfo 5 5 1142 1070 c
       = (tt, c',
          unmaximize_requests c ++ unfullscreen_requests c
          ++ [if (0 <? 1142) && (0 <? 1070)
              then client.MoveresizeWindow (client.Win c)
                     (5 + (position_offset c).1) (5 + (position_offset c).2)
                     (1142 - (size_offset c).1) (1070 - (size_offset c).2)
              else client.MoveWindowReq (client.Win c)
                     (5 + (position_offset c).1) (5 + (position_offset c).2)]).
Proof.
  intros getInfo c. split; [reflexivity|].
  exact (MoveWindow_unlocked_requests getInfo c 5 5 1142 1070 eq_refl).
Defined.

Lemma MoveWindow_keeps_client_witness :
  let getInfo := fun _ : client.Window => terminal_info in
  let c := unlocked_terminal in
  let reqs := [client.MoveresizeWindow 77%N 6 25 1140 1049] in
  valid_class (client.Latest c)
  /\ client.MoveWindow getInfo 5 5 1142 1070 c = (tt, c, reqs)
  /\ client.Win c = client.Win c
  /\ client.Original c = client.Original c
  /\ client.Cached c = client.Cached c
  /\ client.Locked c = false
  /\ valid_class (client.Latest c)
  /\ (client.Latest c = client.Latest c
      \/ (client.Locked c = false /\ client.Latest c = getInfo (client.Win c))).
Proof.
  intros getInfo c reqs.
  assert (Hv : valid_class (client.Latest c)) by (vm_compute; discriminate).
  assert (Hm : client.MoveWindow getInfo 5 5 1142 1070 c = (tt, c, reqs)) by reflexivity.
  split; [exact Hv|]. split; [exact Hm|].
  exact (MoveWindow_keeps_client getInfo c 5 5 1142 1070 Hv c reqs Hm).
Defined.

Lemma IsMinimized_IsSpecial_witness :
  IsMinimized hidden_info = true /\ IsSpecial "cortile" hidden_info = true.
Proof.
  split; [reflexivity|].
  exact (IsMinimized_IsSpecial "cortile" hidden_info eq_refl).
Defined.

Lemma IsIgnored_compiles_once_witness :
  let WindowIgnore := [["firefox"; EmptyString]] in
  let specs := [ {| class := "firefox"; name := EmptyString |} ] in
  WindowIgnore <> [] /\ client.Class terminal_info <> EmptyString
  /\ IsIgnored string literal_compile literal_match literal_source keep_case
       WindowIgnore [] terminal_info = Some (false, specs)
  /\ length specs = length WindowIgnore
  /\ forall WindowIgnore' info',
       exists b',
         IsIgnored string literal_compile literal_match literal_source keep_case
           WindowIgnore' specs info' = Some (b', specs)
         /\ IsIgnored string literal_compile literal_match literal_source keep_case
              WindowIgnore specs info' = Some (b', specs).
Proof.
  intros WindowIgnore specs.
  assert (H1 : WindowIgnore <> []) by discriminate.
  assert (H2 : client.Class terminal_info <> EmptyString) by discriminate.
  assert (H3 : IsIgnored string literal_compile literal_match literal_source keep_case
                 WindowIgnore [] terminal_info = Some (false, specs)) by reflexivity.
  split; [exact H1|]. split; [exact H2|]. split; [exact H3|].
  exact (IsIgnored_compiles_once string literal_compile literal_match literal_source
           keep_case WindowIgnore terminal_info false specs H1 H2 H3).
Defined.

(** ** The side of the masters *)

(** Why the layout has to agree on the side of the masters.  A
    vertical-right layout with a spare master does not swap the areas, so
    [Do] gives the master the left column and six tenths of the width; a
    resize that reports this very width sets entry 1, the entry of the
    other column, and the two shares change places. *)
Example UpdateProportions_right_without_swap :
  exists a b l' d',
    Do unswapped_right scenario_env = Some [a; b]
    /\ rectangle a = (5, 5, 1142, 535)
    /\ UpdateProportions (SetProportions (1 # 10)) unswapped_right
         {| DesktopDimensions := (0, 0, 1920, 1080); WindowGapSize := 5;
            OuterGeometry := fun _ => rectangle a |}
         1%positive {| Top := false; Right := false; Bottom := false; Left := true |}
       = Some (l', d')
    /\ Forall2 Qeq (MasterSlave (Proportions (Manager l'))) [4 # 10; 6 # 10]%Q.
Proof.
  eexists _, _, _, _. split; [vm_compute; reflexivity|]. split; [reflexivity|].
  split; [vm_compute; reflexivity|].
  cbn. repeat constructor; reflexivity.
Qed.
